(** * VWAP band trading scripts: a shallow embedding of the ONDS simulators

  The development models the arithmetic of [simulate_onds_vwap_only.py],
  [animate_onds.py] and [real_trade_onds.py].  In the modules [Pandas],
  [Vwap], [AnimateOnds], [Sim] and [Real] prices and money are rational
  numbers ([Q], compared with [==]): every operation of the scripts is
  read with exact arithmetic, and the only non-finite value that the
  modelled columns can hold, the NaN produced by [0.0 / 0], is
  represented by [None].  What is proved there about sums, products and
  quotients of prices is proved of the exact values, not of the rounded
  ones.  The module [AnimateOndsFloat] gives the ledger of
  [animate_onds.py] a second time, in the binary64 arithmetic of
  Python's [float], to show where rounding separates the two. *)

From Stdlib Require Import List ZArith NArith QArith Qabs Qround Qminmax Lia Lqa Bool.
From Stdlib Require String.
From Stdlib Require Floats.
Import ListNotations.

Local Open Scope Q_scope.

(** ** pandas primitives used by the scripts *)

Module Pandas.

(** [Series.cumsum()]: the running total, first entry the first value. *)
Fixpoint cumsum_acc {A : Type} (add : A -> A -> A) (acc : A) (l : list A)
  : list A :=
  match l with
  | [] => []
  | x :: t => add acc x :: cumsum_acc add (add acc x) t
  end.

Definition cumsum {A : Type} (add : A -> A -> A) (l : list A) : list A :=
  match l with
  | [] => []
  | x :: t => x :: cumsum_acc add x t
  end.

(** [s.iloc[-k]] for [k >= 1]: [None] stands for the [IndexError] raised
    when the series has fewer than [k] entries. *)
Definition iloc_neg {A : Type} (l : list A) (k : nat) : option A :=
  if (length l <? k)%nat then None else nth_error l (length l - k).

(** [df.iloc[:n]] *)
Definition iloc_upto {A : Type} (n : nat) (l : list A) : list A := firstn n l.

(** Division of a float column by an integer column.  The divisor is a
    share count, so the only exceptional case is a zero divisor. *)
Definition fdiv (x : Q) (n : N) : option Q :=
  if (n =? 0)%N then None else Some (x / inject_Z (Z.of_N n)).

(** Comparisons of floats where a NaN operand makes the test false. *)
Definition gt_nan (a b : option Q) : bool :=
  match a, b with
  | Some x, Some y => negb (Qle_bool x y)
  | _, _ => false
  end.

Definition le_nan (a : Q) (b : option Q) : bool :=
  match b with
  | Some y => Qle_bool a y
  | None => false
  end.

Definition ge_nan (a : Q) (b : option Q) : bool :=
  match b with
  | Some y => Qle_bool y a
  | None => false
  end.

(** Scalar multiplication of a float that may be NaN. *)
Definition mul_nan (a : option Q) (k : Q) : option Q :=
  option_map (fun x => x * k) a.

(** [a < b] and [a > b] of a float and a float that may be NaN. *)
Definition lt_nan (a : Q) (b : option Q) : bool :=
  match b with
  | Some y => negb (Qle_bool y a)
  | None => false
  end.

Definition gt_nan_r (a : Q) (b : option Q) : bool :=
  match b with
  | Some y => negb (Qle_bool a y)
  | None => false
  end.

End Pandas.

(** ** The minute bars and the VWAP columns

  [TradingSimulator.__init__], [RealTrader.__init__] and [animate_onds]
  add the same five columns to the frame of the last trading day. *)

Module Vwap.
Import Pandas.

Record Bar : Type := mkBar {
  Datetime : Z;
  Open : Q;
  High : Q;
  Low : Q;
  Close : Q;
  Volume : N
}.

Definition vol (b : Bar) : Q := inject_Z (Z.of_N (Volume b)).

(** [data['Typical_Price'] = (data['High'] + data['Low'] + data['Close']) / 3] *)
Definition Typical_Price (b : Bar) : Q := (High b + Low b + Close b) / 3.

(** [data['VP'] = data['Typical_Price'] * data['Volume']] *)
Definition VP (b : Bar) : Q := Typical_Price b * vol b.

(** [data['Cum_VP'] = data['VP'].cumsum()] *)
Definition Cum_VP (data : list Bar) : list Q := cumsum Qplus (map VP data).

(** [data['Cum_Vol'] = data['Volume'].cumsum()] *)
Definition Cum_Vol (data : list Bar) : list N := cumsum N.add (map Volume data).

Fixpoint zip_div (xs : list Q) (ns : list N) : list (option Q) :=
  match xs, ns with
  | x :: xs', n :: ns' => fdiv x n :: zip_div xs' ns'
  | _, _ => []
  end.

(** [data['VWAP'] = data['Cum_VP'] / data['Cum_Vol']] *)
Definition VWAP (data : list Bar) : list (option Q) :=
  zip_div (Cum_VP data) (Cum_Vol data).

(** The three running values after the last row of the frame. *)
Record VWAPState : Type := mkVWAPState {
  cumulativeVolumePrice : Q;
  cumulativeVolume : N;
  vwap : option Q
}.

Definition engine_state (data : list Bar) : option VWAPState :=
  match iloc_neg (Cum_VP data) 1, iloc_neg (Cum_Vol data) 1,
        iloc_neg (VWAP data) 1 with
  | Some cvp, Some cv, Some w => Some (mkVWAPState cvp cv w)
  | _, _, _ => None
  end.

(** *** The formula of the specification, on a prefix of bars *)

Definition sum_Q (l : list Q) : Q := fold_right Qplus 0 l.
Definition sum_N (l : list N) : N := fold_right N.add 0%N l.

Definition vwap_formula (pre : list Bar) : Q :=
  sum_Q (map (fun b => ((High b + Low b + Close b) / 3) * vol b) pre)
  / inject_Z (Z.of_N (sum_N (map Volume pre))).

End Vwap.

(** ** [animate_onds.py]: the ledger kept in the [sim_state] dictionary *)

Module AnimateOnds.

Definition qz (z : Z) : Q := inject_Z z.

(** [a > b] on finite floats *)
Definition Qgt_b (a b : Q) : bool := negb (Qle_bool a b).

Record sim_state : Type := mkState {
  deviation : Q;
  position : Z;
  avg_price : Q;
  cash : Q;
  current_price : Q;
  realized_pnl : Q
}.

Definition initial_cash : Q := 10000.

Definition init : sim_state :=
  {| deviation := 0.01; position := 0; avg_price := 0;
     cash := initial_cash; current_price := 0; realized_pnl := 0 |}.

(** [on_key]: '+' or '=' raises the deviation by one step, '-' or '_'
    lowers it, never below zero. *)
Definition step : Q := 0.0005.

Inductive key : Type := KeyPlus | KeyMinus | KeyOther.

Definition on_key (k : key) (s : sim_state) : sim_state :=
  match k with
  | KeyPlus =>
      mkState (deviation s + step) (position s) (avg_price s) (cash s)
              (current_price s) (realized_pnl s)
  | KeyMinus =>
      mkState (Qmax 0 (deviation s - step)) (position s) (avg_price s)
              (cash s) (current_price s) (realized_pnl s)
  | KeyOther => s
  end.

Definition execute_buy (qty : Z) (s : sim_state) : sim_state :=
  let price := current_price s in
  if Qgt_b price 0 then
    let total_cost := qz (position s) * avg_price s + price * qz qty in
    let position' := (position s + qty)%Z in
    {| deviation := deviation s;
       position := position';
       avg_price := total_cost / qz position';
       cash := cash s - price * qz qty;
       current_price := price;
       realized_pnl := realized_pnl s |}
  else s.

Definition execute_sell (qty : Z) (s : sim_state) : sim_state :=
  let price := current_price s in
  if Qgt_b price 0 && (0 <? position s)%Z then
    let qty_to_sell := Z.min qty (position s) in
    let pnl := (price - avg_price s) * qz qty_to_sell in
    let position' := (position s - qty_to_sell)%Z in
    {| deviation := deviation s;
       position := position';
       avg_price := if (position' =? 0)%Z then 0 else avg_price s;
       cash := cash s + price * qz qty_to_sell;
       current_price := price;
       realized_pnl := realized_pnl s + pnl |}
  else s.

(** [on_buy_click] and [on_sell_click] *)
Definition on_buy_click : sim_state -> sim_state := execute_buy 1.
Definition on_sell_click : sim_state -> sim_state := execute_sell 1.

(** The replay loop stores the close of the visible bar before anything
    trades on it: [sim_state['current_price'] = current_close]. *)
Definition set_price (p : Q) (s : sim_state) : sim_state :=
  mkState (deviation s) (position s) (avg_price s) (cash s) p
          (realized_pnl s).

(** What can happen to the ledger, in the order it happens. *)
Inductive event : Type :=
| Price (p : Q)
| Buy (qty : Z)
| Sell (qty : Z).

Definition apply (e : event) (s : sim_state) : sim_state :=
  match e with
  | Price p => set_price p s
  | Buy q => execute_buy q s
  | Sell q => execute_sell q s
  end.

Definition run (es : list event) (s : sim_state) : sim_state :=
  fold_left (fun st e => apply e st) es s.

(** The quantities of the title line of the chart. *)
Definition unrealized_pnl (current_close : Q) (s : sim_state) : Q :=
  (current_close - avg_price s) * qz (position s).

Definition total_pnl (current_close : Q) (s : sim_state) : Q :=
  realized_pnl s + unrealized_pnl current_close s.

Definition account_value (current_close : Q) (s : sim_state) : Q :=
  cash s + qz (position s) * current_close.

(** Every buy of the script is for a positive number of shares. *)
Definition buys_positive (es : list event) : Prop :=
  Forall (fun e => match e with Buy q => (0 < q)%Z | _ => True end) es.

(** *** The replay loop

    [for i in range(len(day_data))]: one pass per bar, with the close and
    the lower band of the bar before kept in [prev_close] and
    [prev_lower] ([None] before the first bar).  Keys and button clicks
    are handled between two passes, during [plt.pause]. *)

Record loop_state : Type := mkLoop {
  ledger : sim_state;
  prev_close : option Q;
  prev_lower : option (option Q)
}.

Definition loop_init : loop_state := mkLoop init None None.

(** The calls the auto-trading lines of the loop make. *)
Inductive call : Type :=
| CallBuy (qty : Z)
| CallSell (qty : Z).

(** The auto-trading lines, for the ledger [s0] that already holds the
    close of the bar. *)
Definition auto_trade (pc : Q) (pl : option Q) (current_close : Q)
           (current_lower : option Q) (s0 : sim_state)
  : sim_state * list call :=
  let '(sa, ca) :=
    if Pandas.lt_nan pc pl && Pandas.gt_nan_r current_close current_lower
    then (execute_buy 1 s0, [CallBuy 1])
    else (s0, []) in
  let '(sb, cb) :=
    if Pandas.gt_nan_r pc pl && Pandas.lt_nan current_close current_lower
    then
      if (0 <? position sa)%Z
      then (execute_sell (position sa) sa, [CallSell (position sa)])
      else (sa, [])
    else (sa, []) in
  (sb, ca ++ cb).

(** One pass of the loop over the row [(bar, VWAP entry)]. *)
Definition loop_body (row : Vwap.Bar * option Q) (ls : loop_state)
  : loop_state * list call :=
  let current_close := Vwap.Close (fst row) in
  let s0 := set_price current_close (ledger ls) in
  let current_vwap := snd row in
  let dev := deviation s0 in
  let current_lower := Pandas.mul_nan current_vwap (1 - dev) in
  let '(s1, calls) :=
    match prev_close ls, prev_lower ls with
    | Some pc, Some pl => auto_trade pc pl current_close current_lower s0
    | _, _ => (s0, [])
    end in
  (mkLoop s1 (Some current_close) (Some current_lower), calls).

(** What happens during a session, in order: a pass of the loop over the
    next row, a key press, or a click on one of the two buttons. *)
Inductive action : Type :=
| Pass (row : Vwap.Bar * option Q)
| Key (k : key)
| ClickBuy
| ClickSell.

Definition on_ledger (f : sim_state -> sim_state) (ls : loop_state)
  : loop_state :=
  mkLoop (f (ledger ls)) (prev_close ls) (prev_lower ls).

Definition act (a : action) (ls : loop_state) : loop_state :=
  match a with
  | Pass row => fst (loop_body row ls)
  | Key k => on_ledger (on_key k) ls
  | ClickBuy => on_ledger on_buy_click ls
  | ClickSell => on_ledger on_sell_click ls
  end.

Definition session (acts : list action) (ls : loop_state) : loop_state :=
  fold_left (fun st a => act a st) acts ls.

(** The rows the loop passes over. *)
Definition rows (day_data : list Vwap.Bar) : list (Vwap.Bar * option Q) :=
  combine day_data (Vwap.VWAP day_data).

End AnimateOnds.

(** ** [animate_onds.py]: the same ledger in binary64

    [execute_buy] and [execute_sell] once more, operation by operation
    and in the order of the source, on the doubles that Python's [float]
    is.  The position and the quantities are Python integers; an integer
    that meets a float in a product or a quotient is converted first
    ([float_of_int], exact below [2^53]). *)

Module AnimateOndsFloat.
Import Floats.
Local Open Scope float_scope.

Definition float_of_int (z : Z) : float :=
  if (z <? 0)%Z then - of_uint63 (Uint63.of_Z (- z))
  else of_uint63 (Uint63.of_Z z).

Record sim_state : Type := mkState {
  position : Z;
  avg_price : float;
  cash : float;
  current_price : float;
  realized_pnl : float
}.

Definition initial_cash : float := 10000.

Definition init : sim_state :=
  {| position := 0; avg_price := 0; cash := initial_cash;
     current_price := 0; realized_pnl := 0 |}.

Definition execute_buy (qty : Z) (s : sim_state) : sim_state :=
  let price := current_price s in
  if 0 <? price then
    let total_cost :=
      float_of_int (position s) * avg_price s + price * float_of_int qty in
    let position' := (position s + qty)%Z in
    {| position := position';
       avg_price := total_cost / float_of_int position';
       cash := cash s - price * float_of_int qty;
       current_price := price;
       realized_pnl := realized_pnl s |}
  else s.

Definition execute_sell (qty : Z) (s : sim_state) : sim_state :=
  let price := current_price s in
  if andb (0 <? price) (0 <? position s)%Z then
    let qty_to_sell := Z.min qty (position s) in
    let pnl := (price - avg_price s) * float_of_int qty_to_sell in
    let position' := (position s - qty_to_sell)%Z in
    {| position := position';
       avg_price := if (position' =? 0)%Z then 0 else avg_price s;
       cash := cash s + price * float_of_int qty_to_sell;
       current_price := price;
       realized_pnl := realized_pnl s + pnl |}
  else s.

Definition set_price (p : float) (s : sim_state) : sim_state :=
  mkState (position s) (avg_price s) (cash s) p (realized_pnl s).

Inductive event : Type :=
| Price (p : float)
| Buy (qty : Z)
| Sell (qty : Z).

Definition apply (e : event) (s : sim_state) : sim_state :=
  match e with
  | Price p => set_price p s
  | Buy q => execute_buy q s
  | Sell q => execute_sell q s
  end.

Definition run (es : list event) (s : sim_state) : sim_state :=
  fold_left (fun st e => apply e st) es s.

(** The quantities of the title line of the chart, as the loop computes
    them. *)
Definition unrealized_pnl (current_close : float) (s : sim_state) : float :=
  (current_close - avg_price s) * float_of_int (position s).

Definition total_pnl (current_close : float) (s : sim_state) : float :=
  realized_pnl s + unrealized_pnl current_close s.

Definition account_value (current_close : float) (s : sim_state) : float :=
  cash s + float_of_int (position s) * current_close.

End AnimateOndsFloat.

(** ** [simulate_onds_vwap_only.py]: [TradingSimulator] *)

Module Sim.
Import Pandas Vwap.

Definition INITIAL_CASH : Q := 10000.
Definition TRADE_QTY : Z := 1.

Definition qz (z : Z) : Q := inject_Z z.
Definition Qgt_b (a b : Q) : bool := negb (Qle_bool a b).

(** The fields of the simulator that the trading logic reads or writes.
    The frame [self.data] never changes after [__init__] and is passed
    to the methods that need it. *)
Record t : Type := mkSim {
  current_idx : nat;
  cash : Q;
  position : Z;
  equity : Q;
  pl : Q;
  current_price : Q;
  deviation : Q;
  auto_trade_enabled : bool
}.

Definition init : t :=
  {| current_idx := 0; cash := INITIAL_CASH; position := 0;
     equity := INITIAL_CASH; pl := 0; current_price := 0;
     deviation := 0.01; auto_trade_enabled := true |}.

(** The lines the simulator prints, one constructor per [print]. *)
Inductive line : Type :=
| BOUGHT (qty : Z) (price : Q)
| SOLD (qty : Z) (price : Q)
| CLOSED (qty : Z) (price : Q)
| AutoUptrendDipBuy
| AutoDowntrendBreakdown
| AutoUpperBandProfit.

(** A method: a state transformer that also prints. *)
Definition Act : Type := t -> t * list line.

Definition skip : Act := fun s => (s, []).
Definition print (l : line) : Act := fun s => (s, [l]).
Definition modify (f : t -> t) : Act := fun s => (f s, []).
Definition seq (a b : Act) : Act :=
  fun s => let (s1, o1) := a s in
           let (s2, o2) := b s1 in (s2, o1 ++ o2).
Notation "a ;; b" := (seq a b) (at level 61, right associativity).

Definition toggle_auto_trade (s : t) : t :=
  mkSim (current_idx s) (cash s) (position s) (equity s) (pl s)
        (current_price s) (deviation s) (negb (auto_trade_enabled s)).

Definition increase_dev (s : t) : t :=
  mkSim (current_idx s) (cash s) (position s) (equity s) (pl s)
        (current_price s) (deviation s + 0.0005) (auto_trade_enabled s).

Definition decrease_dev (s : t) : t :=
  mkSim (current_idx s) (cash s) (position s) (equity s) (pl s)
        (current_price s) (Qmax 0 (deviation s - 0.0005))
        (auto_trade_enabled s).

Definition update_metrics (s : t) : t :=
  let equity' := cash s + qz (position s) * current_price s in
  mkSim (current_idx s) (cash s) (position s) equity'
        (equity' - INITIAL_CASH) (current_price s) (deviation s)
        (auto_trade_enabled s).

Definition buy : Act :=
  fun s =>
    let cost := current_price s * qz TRADE_QTY in
    let s1 := mkSim (current_idx s) (cash s - cost)
                    (position s + TRADE_QTY) (equity s) (pl s)
                    (current_price s) (deviation s)
                    (auto_trade_enabled s) in
    (update_metrics s1, [BOUGHT TRADE_QTY (current_price s)]).

Definition sell : Act :=
  fun s =>
    let gain := current_price s * qz TRADE_QTY in
    let s1 := mkSim (current_idx s) (cash s + gain)
                    (position s - TRADE_QTY) (equity s) (pl s)
                    (current_price s) (deviation s)
                    (auto_trade_enabled s) in
    (update_metrics s1, [SOLD TRADE_QTY (current_price s)]).

Definition close_position : Act :=
  fun s =>
    if (position s =? 0)%Z then (s, [])
    else
      let value := qz (position s) * current_price s in
      let s1 := mkSim (current_idx s) (cash s + value) 0 (equity s)
                      (pl s) (current_price s) (deviation s)
                      (auto_trade_enabled s) in
      (update_metrics s1, [CLOSED (position s) (current_price s)]).

(** The frame after [__init__]: every bar with its VWAP entry. *)
Definition Row : Type := (Bar * option Q)%type.

Definition frame (data : list Bar) : list Row := combine data (VWAP data).

Definition col_VWAP (subset : list Row) : list (option Q) := map snd subset.
Definition col_Low (subset : list Row) : list Q :=
  map (fun r => Low (fst r)) subset.
Definition col_High (subset : list Row) : list Q :=
  map (fun r => High (fst r)) subset.
Definition col_Close (subset : list Row) : list Q :=
  map (fun r => Close (fst r)) subset.

(** The three rules of [check_auto_trade], once the trend and the band
    tests of the current row are known.  Rule 3 is an [if] of its own and
    reads the position and the profit that rules 1 and 2 leave behind. *)
Definition apply_rules (is_uptrend touches_lower touches_upper : bool)
           (s : t) : t * list line :=
  let '(s1, o1) :=
    if is_uptrend && touches_lower then
      (print AutoUptrendDipBuy ;; buy) s
    else if negb is_uptrend && touches_lower then
      if (0 <? position s)%Z then
        (print AutoDowntrendBreakdown ;; close_position) s
      else (s, [])
    else (s, []) in
  let '(s2, o2) :=
    if (0 <? position s1)%Z && touches_upper then
      if Qgt_b (pl s1) 0 then
        (print AutoUpperBandProfit ;; close_position) s1
      else (s1, [])
    else (s1, []) in
  (s2, o1 ++ o2).

(** [check_auto_trade].  The result is [None] when an [.iloc] lookup
    raises; all lookups precede the first trade. *)
Definition check_auto_trade (subset : list Row)
           (upper_band_val lower_band_val : option Q) (s : t)
  : option (t * list line) :=
  if negb (auto_trade_enabled s) || (length subset <? 5)%nat then
    Some (s, [])
  else
    match iloc_neg (col_VWAP subset) 1, iloc_neg (col_VWAP subset) 4,
          iloc_neg (col_Low subset) 1, iloc_neg (col_High subset) 1 with
    | Some current_vwap, Some past_vwap, Some current_low,
      Some current_high =>
        Some (apply_rules (gt_nan current_vwap past_vwap)
                          (le_nan current_low lower_band_val)
                          (ge_nan current_high upper_band_val) s)
    | _, _, _, _ => None
    end.

Definition set_idx (i : nat) (s : t) : t :=
  mkSim i (cash s) (position s) (equity s) (pl s) (current_price s)
        (deviation s) (auto_trade_enabled s).

Definition set_price (p : Q) (s : t) : t :=
  mkSim (current_idx s) (cash s) (position s) (equity s) (pl s) p
        (deviation s) (auto_trade_enabled s).

(** [upper_band = subset['VWAP'] * (1 + self.deviation)] and
    [lower_band = subset['VWAP'] * (1 - self.deviation)] *)
Definition upper_band (dev : Q) (vw : list (option Q)) : list (option Q) :=
  map (fun w => mul_nan w (1 + dev)) vw.

Definition lower_band (dev : Q) (vw : list (option Q)) : list (option Q) :=
  map (fun w => mul_nan w (1 - dev)) vw.

(** [animate(i)], without the drawing. *)
Definition animate (data : list Bar) (i : nat) (s : t)
  : option (t * list line) :=
  let s0 := set_idx (i + 1) s in
  let subset := iloc_upto (current_idx s0) (frame data) in
  match subset with
  | [] => Some (s0, [])
  | _ :: _ =>
      match iloc_neg (col_Close subset) 1 with
      | None => None
      | Some c =>
          let s1 := update_metrics (set_price c s0) in
          match iloc_neg (upper_band (deviation s1) (col_VWAP subset)) 1,
                iloc_neg (lower_band (deviation s1) (col_VWAP subset)) 1 with
          | Some u, Some l => check_auto_trade subset u l s1
          | _, _ => None
          end
      end
  end.

(** [FuncAnimation]: frames [i], [i+1], ... ([n] of them), in order; the
    output is kept frame by frame. *)
Fixpoint frames (data : list Bar) (i n : nat) (s : t)
  : option (t * list (list line)) :=
  match n with
  | O => Some (s, [])
  | S n' =>
      match animate data i s with
      | None => None
      | Some (s1, o1) =>
          match frames data (S i) n' s1 with
          | None => None
          | Some (s2, os) => Some (s2, o1 :: os)
          end
      end
  end.

Definition run (data : list Bar) : option (t * list (list line)) :=
  frames data 0 (length data) init.

(** The trading signals among the printed lines. *)
Inductive signal : Type := BUY | CLOSE.

Fixpoint signals (o : list line) : list signal :=
  match o with
  | [] => []
  | AutoUptrendDipBuy :: o' => BUY :: signals o'
  | AutoDowntrendBreakdown :: o' => CLOSE :: signals o'
  | AutoUpperBandProfit :: o' => CLOSE :: signals o'
  | _ :: o' => signals o'
  end.



(** *** The conditions of the trading rules, read off the frame *)

Definition is_uptrend (subset : list Row) : bool :=
  match iloc_neg (col_VWAP subset) 1, iloc_neg (col_VWAP subset) 4 with
  | Some current_vwap, Some past_vwap => gt_nan current_vwap past_vwap
  | _, _ => false
  end.

Definition low_touches (subset : list Row) (lower_band_val : option Q)
  : bool :=
  match iloc_neg (col_Low subset) 1 with
  | Some current_low => le_nan current_low lower_band_val
  | None => false
  end.

Definition high_touches (subset : list Row) (upper_band_val : option Q)
  : bool :=
  match iloc_neg (col_High subset) 1 with
  | Some current_high => ge_nan current_high upper_band_val
  | None => false
  end.


(** The deviation buttons, pressed in some order. *)
Inductive dev_button : Type := Plus | Minus.

Definition press (b : dev_button) (s : t) : t :=
  match b with
  | Plus => increase_dev s
  | Minus => decrease_dev s
  end.

Definition press_all (bs : list dev_button) (s : t) : t :=
  fold_left (fun st b => press b st) bs s.

(** The two derived fields are up to date: what [update_metrics]
    establishes and the info line shows. *)
Definition consistent (s : t) : Prop :=
  equity s == cash s + qz (position s) * current_price s
  /\ pl s == equity s - INITIAL_CASH.

End Sim.

(** ** [real_trade_onds.py]: [RealTrader]

  The trader keeps no ledger of its own: the position is read from the
  shared state filled by the monitor thread, and every action is a
  request sent to the broker.  The model records the requests. *)

Module Real.
Import Pandas Vwap.

Definition Qgt_b (a b : Q) : bool := negb (Qle_bool a b).
Definition Qlt_b (a b : Q) : bool := negb (Qle_bool b a).

(** The [side] strings handed to [place_real_order]. *)
Inductive side : Type := BUY | SELL | BUY_TO_COVER.

(** [order.OrderType] of the request that reaches the broker. *)
Inductive OrderType : Type := OT_BUY | OT_SELL | OT_BUY_TO_COVER.

Inductive effect : Type :=
| PlaceOrder (order_type : OrderType) (quantity : Z)
| BuySignal
| StopLossSignal
| TakeProfitSignal.

(** [place_real_order]: [OrderType.BUY if side == 'BUY' else
    OrderType.SELL]; a failure of the call is caught and printed. *)
Definition place_real_order (sd : side) (qty : Z) : list effect :=
  [PlaceOrder (match sd with BUY => OT_BUY | _ => OT_SELL end) qty].

(** [int(x)] of a float: truncation towards zero. *)
Definition int (x : Q) : Z :=
  if Qle_bool 0 x then Qfloor x else Qceiling x.

(** [close_position], as a function of what its own look at
    [state.positions.get(TICKER, 0)] finds. *)
Definition close_position (qty : Q) : list effect :=
  if Qgt_b qty 0 then place_real_order SELL (int qty)
  else if Qlt_b qty 0 then
    place_real_order BUY_TO_COVER (int (Qabs qty))
    ++ [PlaceOrder OT_BUY_TO_COVER (int (Qabs qty))]
  else [].

Definition Row : Type := (Bar * option Q)%type.
Definition frame (data : list Bar) : list Row := combine data (VWAP data).
Definition col_VWAP (subset : list Row) : list (option Q) := map snd subset.
Definition col_Low (subset : list Row) : list Q :=
  map (fun r => Low (fst r)) subset.
Definition col_High (subset : list Row) : list Q :=
  map (fun r => High (fst r)) subset.

(** [check_auto_trade]; [None] is the [IndexError] of an [.iloc] lookup
    on a frame that is too short, raised before any request.

    The position is shared with the monitor thread, which replaces it
    every five seconds.  The method looks at it once, and
    [close_position] looks again every time it is called: [reads k] is
    what look number [k] of this call finds, whatever the monitor thread
    has done in between. *)
Definition check_auto_trade (auto_trade_enabled : bool) (reads : nat -> Q)
           (subset : list Row) (upper lower : option Q)
  : option (list effect) :=
  if negb auto_trade_enabled then Some []
  else
    let qty := reads 0%nat in
    match iloc_neg (col_VWAP subset) 1, iloc_neg (col_VWAP subset) 4,
          iloc_neg (col_Low subset) 1, iloc_neg (col_High subset) 1 with
    | Some current_vwap, Some past_vwap, Some current_low,
      Some current_high =>
        let is_uptrend := gt_nan current_vwap past_vwap in
        let '(o1, next) :=
          if is_uptrend && le_nan current_low lower then
            (BuySignal :: place_real_order BUY 1, 1%nat)
          else if negb is_uptrend && le_nan current_low lower
                  && Qgt_b qty 0 then
            (StopLossSignal :: close_position (reads 1%nat), 2%nat)
          else ([], 1%nat) in
        let o2 :=
          if Qgt_b qty 0 && ge_nan current_high upper then
            TakeProfitSignal :: close_position (reads next)
          else [] in
        Some (o1 ++ o2)
    | _, _, _, _ => None
    end.

Definition is_order (e : effect) : bool :=
  match e with PlaceOrder _ _ => true | _ => false end.

Definition is_signal (e : effect) : bool := negb (is_order e).

(** The signals among the effects of one call. *)
Definition signals (o : list effect) : list effect := filter is_signal o.

End Real.

(** ** The account monitor: searching a broker response

    [monitor_loop] of [real_trade_onds.py] and [main] of
    [monitor_account.py] look for a balance in the decoded response of
    the broker with the same nested helper [find_key]. *)

Module Monitor.

(** A decoded response: [None], booleans, numbers, strings, lists, and
    dictionaries with string keys in their order. *)
#[local] Unset Elimination Schemes.
Inductive json : Type :=
| JNone
| JBool (b : bool)
| JNum (x : Q)
| JStr (s : String.string)
| JList (items : list json)
| JDict (fields : list (String.string * json)).
#[local] Set Elimination Schemes.

(** Truth value of a Python object: [if res:]. *)
Definition truthy (v : json) : bool :=
  match v with
  | JNone => false
  | JBool b => b
  | JNum x => negb (Qeq_bool x 0)
  | JStr s => negb (String.eqb s String.EmptyString)
  | JList items => match items with [] => false | _ :: _ => true end
  | JDict fields => match fields with [] => false | _ :: _ => true end
  end.

(** [isinstance(v, (dict, list))] *)
Definition is_container (v : json) : bool :=
  match v with
  | JList _ | JDict _ => true
  | _ => false
  end.

(** [find_key(data, target)].  The test on a key,
    [target.lower() in k.lower()], is the argument [hit]. *)
Fixpoint find_key (hit : String.string -> bool) (data : json) {struct data}
  : json :=
  match data with
  | JDict fields =>
      (fix scan (fs : list (String.string * json)) : json :=
         match fs with
         | [] => JNone
         | (k, v) :: rest =>
             if hit k then v
             else
               match v with
               | JList _ | JDict _ =>
                   let res := find_key hit v in
                   if truthy res then res else scan rest
               | _ => scan rest
               end
         end) fields
  | JList items =>
      (fix scan (l : list json) : json :=
         match l with
         | [] => JNone
         | item :: rest =>
             let res := find_key hit item in
             if truthy res then res else scan rest
         end) items
  | _ => JNone
  end.

(** [find_key(balances, target) or 0.0] *)
Definition find_or_zero (hit : String.string -> bool) (balances : json)
  : json :=
  let res := find_key hit balances in
  if truthy res then res else JNum 0.

(** [v] is the value of a key that passes the test, at some depth. *)
Inductive stored (hit : String.string -> bool) : json -> json -> Prop :=
| stored_here (fields : list (String.string * json)) (k : String.string)
              (v : json) :
    In (k, v) fields -> hit k = true -> stored hit (JDict fields) v
| stored_field (fields : list (String.string * json)) (k : String.string)
               (d v : json) :
    In (k, d) fields -> stored hit d v -> stored hit (JDict fields) v
| stored_item (items : list json) (d v : json) :
    In d items -> stored hit d v -> stored hit (JList items) v.

End Monitor.

(** ** The credentials file

    [load_credentials] of [real_trade_onds.py] and of
    [monitor_account.py]: lines of the form key=value. *)

Module Credentials.

(** A Python string, as the list of its code points. *)
Definition str : Type := list N.

(** The characters that [str.strip()] removes ([str.isspace]). *)
Definition is_space (c : N) : bool :=
  ((9 <=? c) && (c <=? 13) || (28 <=? c) && (c <=? 32)
   || (c =? 133) || (c =? 160) || (c =? 5760)
   || (8192 <=? c) && (c <=? 8202)
   || (c =? 8232) || (c =? 8233) || (c =? 8239) || (c =? 8287)
   || (c =? 12288))%N.

(** The code point of "=". *)
Definition eq_sign : N := 61.

Fixpoint lstrip (s : str) : str :=
  match s with
  | [] => []
  | c :: t => if is_space c then lstrip t else s
  end.

Definition rstrip (s : str) : str := rev (lstrip (rev s)).

(** [s.strip()] *)
Definition strip (s : str) : str := rstrip (lstrip s).

(** ["=" in line] *)
Definition has_eq (line : str) : bool := existsb (N.eqb eq_sign) line.

(** [line.split("=", 1)] for a line that contains "=": what stands
    before the first "=" and what stands after it. *)
Fixpoint split_eq (line : str) : str * str :=
  match line with
  | [] => ([], [])
  | c :: t =>
      if (c =? eq_sign)%N then ([], t)
      else let (a, b) := split_eq t in (c :: a, b)
  end.

(** A dictionary with string keys, in insertion order. *)
Definition dict : Type := list (str * str).

Definition str_eqb (a b : str) : bool :=
  if list_eq_dec N.eq_dec a b then true else false.

(** [d[k] = v] *)
Fixpoint dict_set (k v : str) (d : dict) : dict :=
  match d with
  | [] => [(k, v)]
  | (k', v') :: r =>
      if str_eqb k' k then (k', v) :: r else (k', v') :: dict_set k v r
  end.

(** [d.get(k)] *)
Fixpoint dict_get (k : str) (d : dict) : option str :=
  match d with
  | [] => None
  | (k', v') :: r => if str_eqb k' k then Some v' else dict_get k r
  end.

(** The body of the loop over the lines, in [real_trade_onds.py]. *)
Definition read_line (creds : dict) (line : str) : dict :=
  if has_eq line then
    let (k, v) := split_eq (strip line) in
    dict_set (strip k) (strip v) creds
  else creds.

(** The body of the loop in [monitor_account.py], which strips the line
    before it looks for "=". *)
Definition read_line_monitor (creds : dict) (line : str) : dict :=
  let line := strip line in
  if has_eq line then
    let (key, value) := split_eq line in
    dict_set (strip key) (strip value) creds
  else creds.

(** [load_credentials]; the argument is [None] when the file does not
    exist and else its lines. *)
Definition load_credentials (file : option (list str)) : option dict :=
  match file with
  | None => None
  | Some lines => Some (fold_left read_line lines [])
  end.

Definition load_credentials_monitor (file : option (list str))
  : option dict :=
  match file with
  | None => None
  | Some lines => Some (fold_left read_line_monitor lines [])
  end.

(** Only whitespace. *)
Definition blank (s : str) : Prop := forallb is_space s = true.

(** No whitespace at either end. *)
Definition trimmed (s : str) : Prop :=
  (forall c t, s = c :: t -> is_space c = false)
  /\ (forall c t, rev s = c :: t -> is_space c = false).

End Credentials.

(** ** Choosing the bars of the last trading day

    Every script downloads five days of minute bars and keeps the rows
    whose date is the date of the last row. *)

Module DayData.
Import Vwap.

(** How the start of [simulate_onds_vwap_only.py] ends: with the frame
    of the day, or with one of its two [ValueError]s. *)
Inductive outcome : Type :=
| Selected (day_data : list Bar)
| NoDataReturned
| NoDataForLastDay.

(** [date] is [Timestamp.date()]: the calendar day of a timestamp. *)
Definition select_last_day (date : Z -> Z) (data : list Bar) : outcome :=
  match Pandas.iloc_neg data 1 with
  | None => NoDataReturned
  | Some last_row =>
      let last_day := date (Datetime last_row) in
      let day_data :=
        filter (fun b => (date (Datetime b) =? last_day)%Z) data in
      match day_data with
      | [] => NoDataForLastDay
      | _ :: _ => Selected day_data
      end
  end.

End DayData.

(** ** [replay_onds.py]: the colour of a printed row *)

Module ReplayOnds.

(** A numpy float: a finite value, an infinity or NaN. *)
Inductive float : Type :=
| Finite (x : Q)
| PosInf
| NegInf
| NaN.

(** Division of two finite floats; a zero divisor gives an infinity or
    NaN (with a warning), not an exception. *)
Definition divide (a b : Q) : float :=
  if Qeq_bool b 0 then
    if Qeq_bool a 0 then NaN
    else if Qle_bool 0 a then PosInf else NegInf
  else Finite (a / b).

(** [x * 100] *)
Definition times_100 (x : float) : float :=
  match x with
  | Finite q => Finite (q * 100)
  | other => other
  end.

(** [x >= 0] *)
Definition ge_0 (x : float) : bool :=
  match x with
  | Finite q => Qle_bool 0 q
  | PosInf => true
  | NegInf | NaN => false
  end.

(** [change_pct = ((close_p - open_p) / open_p) * 100] *)
Definition change_pct (open_p close_p : Q) : float :=
  times_100 (divide (close_p - open_p) open_p).

(** The row is printed green when [change_pct >= 0], else red. *)
Definition is_green (open_p close_p : Q) : bool :=
  ge_0 (change_pct open_p close_p).

End ReplayOnds.

(** ** Tolerance and sample frames *)

Module Samples.
Import Vwap.

(** The relative tolerance 1e-9 of the VWAP property. *)
Definition tolerance : Q := 1 # 1000000000.

Definition bar (ts : Z) (o h l c : Q) (v : N) : Bar := mkBar ts o h l c v.

(** Scenario A of the specification: five identical bars. *)
Definition scenario_A : list Bar :=
  [ bar 1 10 10.5 9.8 10.2 100; bar 2 10 10.5 9.8 10.2 100;
    bar 3 10 10.5 9.8 10.2 100; bar 4 10 10.5 9.8 10.2 100;
    bar 5 10 10.5 9.8 10.2 100 ].

(** A short session on the ledger of [animate_onds.py]. *)
Definition fills : list AnimateOnds.event :=
  [ AnimateOnds.Price 10; AnimateOnds.Buy 1; AnimateOnds.Price 11;
    AnimateOnds.Buy 1; AnimateOnds.Price (21 # 2); AnimateOnds.Sell 1;
    AnimateOnds.Price 9; AnimateOnds.Sell 5 ].

(** Two buys at 10, then the price moves to 12. *)
Definition two_shares : AnimateOnds.sim_state :=
  AnimateOnds.run
    [ AnimateOnds.Price 10; AnimateOnds.Buy 1; AnimateOnds.Buy 1;
      AnimateOnds.Price 12 ] AnimateOnds.init.

(** A bar and an earlier bar that arrives after it. *)
Definition bar_0931 : Bar := bar 931 10 10.5 9.8 10.2 100.
Definition bar_0930 : Bar := bar 930 10 10.4 9.9 10.1 100.

(** The VWAP of the last row of scenario A, as the columns compute it
    (10.1667 in the specification's rounding). *)
Definition vwap_A : Q :=
  Eval vm_compute in
    match nth_error (VWAP scenario_A) 4 with
    | Some (Some v) => v
    | _ => 0
    end.

(** Fourteen bars with rising prices and lows far under the band. *)
Definition rising_bar (i : Z) : Bar :=
  bar (930 + i) (inject_Z (100 + 10 * i)) (inject_Z (100 + 10 * i)) 1
      (inject_Z (100 + 10 * i)) 1.

Definition rising : list Bar :=
  map rising_bar [1; 2; 3; 4; 5; 6; 7; 8; 9; 10; 11; 12; 13; 14]%Z.

(** Fourteen bars whose highs rise while the closes fall. *)
Definition dipping_bar (i : Z) : Bar :=
  bar (930 + i) 50 (inject_Z (100 + 30 * i)) 1 (inject_Z (50 - i)) 1.

Definition dipping : list Bar :=
  map dipping_bar [1; 2; 3; 4; 5; 6; 7; 8; 9; 10; 11; 12; 13; 14]%Z.

(** The sixth frame of the rising sample, as [animate] hands it to
    [check_auto_trade]: the visible rows, the two band values and the
    state after the price update. *)
Definition subset6 : list Sim.Row := Pandas.iloc_upto 6 (Sim.frame rising).

Definition state6 : Sim.t :=
  match Sim.frames rising 0 5 Sim.init with
  | Some (s5, _) =>
      Sim.update_metrics (Sim.set_price 160 (Sim.set_idx 6 s5))
  | None => Sim.init
  end.

Definition upper6 : option Q :=
  match Pandas.iloc_neg
          (Sim.upper_band (Sim.deviation state6) (Sim.col_VWAP subset6)) 1 with
  | Some u => u
  | None => None
  end.

Definition lower6 : option Q :=
  match Pandas.iloc_neg
          (Sim.lower_band (Sim.deviation state6) (Sim.col_VWAP subset6)) 1 with
  | Some l => l
  | None => None
  end.

(** Four bars with falling prices, wide enough to reach both bands. *)
Definition falling_bar (i : Z) : Bar :=
  bar (930 + i) (inject_Z (200 - 10 * i)) (inject_Z (200 - 10 * i)) 1
      (inject_Z (200 - 10 * i)) 1.

Definition falling : list Bar := map falling_bar [1; 2; 3; 4]%Z.

Definition falling_upper : option Q :=
  match Pandas.iloc_neg (Sim.upper_band 0.01 (VWAP falling)) 1 with
  | Some u => u
  | None => None
  end.

Definition falling_lower : option Q :=
  match Pandas.iloc_neg (Sim.lower_band 0.01 (VWAP falling)) 1 with
  | Some l => l
  | None => None
  end.

(** The loop of [animate_onds.py] holding two shares after a bar that
    closed at 12 over a lower band of 11, and a next row that closes at 9
    under a VWAP of 10. *)
Definition holding_loop : AnimateOnds.loop_state :=
  AnimateOnds.mkLoop two_shares (Some 12) (Some (Some 11)).

Definition breakdown_row : Bar * option Q :=
  (bar 940 12 12 9 9 100, Some 10).

(** Lines of a credentials file: an assignment that a later line
    replaces, with blanks around the second "=", and a line of text. *)
Definition line_old : Credentials.str :=
  [85; 83; 69; 82; 78; 65; 77; 69; 61; 111; 108; 100; 10]%N.

Definition key_USERNAME : Credentials.str :=
  [85; 83; 69; 82; 78; 65; 77; 69]%N.

Definition value_bob : Credentials.str := [98; 111; 98; 61; 49]%N.

Definition line_note : Credentials.str :=
  [35; 32; 110; 111; 116; 101; 10]%N.

End Samples.

Module SamplesFloat.
Import Floats AnimateOndsFloat.
Local Open Scope float_scope.
#[local] Set Warnings "-inexact-float".

(** Two buys and a sell at prices that are not binary fractions, and a
    later quote. *)
Definition fills : list event :=
  [Price 10.1; Buy 1; Price 10.3; Buy 1; Price 10.2; Sell 1].

Definition quote : float := 10.7.

(** The two values the sides of the ledger equation take there. *)
Definition more : float := 10000.500000000002.

Definition less : float := 10000.5.

End SamplesFloat.

(** * Properties *)

(** ** Running totals *)

Section Cumsum.
Import Pandas.
Context {A : Type} (add : A -> A -> A).

Lemma cumsum_acc_length (l : list A) :
  forall acc, length (cumsum_acc add acc l) = length l.
Proof. induction l as [|x t IH]; intros acc; simpl; [reflexivity|]. now rewrite IH. Qed.

Lemma cumsum_length (l : list A) : length (cumsum add l) = length l.
Proof. destruct l; simpl; [reflexivity|]. now rewrite cumsum_acc_length. Qed.

Lemma cumsum_acc_nth (l : list A) :
  forall acc i, (i < length l)%nat ->
    nth_error (cumsum_acc add acc l) i
    = Some (fold_left add (firstn (S i) l) acc).
Proof.
  induction l as [|x t IH]; intros acc i Hi; simpl in Hi; [lia|].
  destruct i as [|i]; [reflexivity|].
  cbn [cumsum_acc nth_error]. rewrite IH by lia. reflexivity.
Qed.

Lemma cumsum_nth (x : A) (t : list A) (i : nat) :
  (i < S (length t))%nat ->
  nth_error (cumsum add (x :: t)) i = Some (fold_left add (firstn i t) x).
Proof.
  intros Hi. destruct i as [|i]; [reflexivity|].
  cbn [cumsum nth_error]. apply cumsum_acc_nth. lia.
Qed.

Lemma cumsum_acc_app (l : list A) :
  forall acc y,
    cumsum_acc add acc (l ++ [y])
    = cumsum_acc add acc l ++ [add (fold_left add l acc) y].
Proof.
  induction l as [|x t IH]; intros acc y; simpl; [reflexivity|].
  now rewrite IH.
Qed.

Lemma cumsum_acc_firstn (l : list A) :
  forall acc n,
    firstn n (cumsum_acc add acc l) = cumsum_acc add acc (firstn n l).
Proof.
  induction l as [|x t IH]; intros acc n; destruct n; simpl;
    try reflexivity.
  now rewrite IH.
Qed.

Lemma cumsum_firstn (l : list A) (n : nat) :
  firstn n (cumsum add l) = cumsum add (firstn n l).
Proof.
  destruct l as [|x t]; destruct n; simpl; try reflexivity.
  now rewrite cumsum_acc_firstn.
Qed.

End Cumsum.

Section Sums.
Import Vwap.

Lemma fold_left_Qplus (l : list Q) :
  forall a, fold_left Qplus l a == a + sum_Q l.
Proof.
  induction l as [|x t IH]; intros a; simpl.
  - ring.
  - rewrite IH. ring.
Qed.

Lemma fold_left_Nadd (l : list N) :
  forall a, fold_left N.add l a = (a + sum_N l)%N.
Proof.
  induction l as [|x t IH]; intros a; simpl.
  - lia.
  - rewrite IH. lia.
Qed.

Lemma zip_div_nth (xs : list Q) :
  forall ns i x n,
    nth_error xs i = Some x -> nth_error ns i = Some n ->
    nth_error (zip_div xs ns) i = Some (Pandas.fdiv x n).
Proof.
  induction xs as [|x0 xs IH]; intros ns i x n Hx Hn.
  - destruct i; discriminate.
  - destruct ns as [|n0 ns]; [destruct i; discriminate|].
    destruct i as [|i]; simpl in *.
    + now inversion Hx; inversion Hn.
    + now apply IH.
Qed.

Lemma zip_div_length (xs : list Q) :
  forall ns, length xs = length ns -> length (zip_div xs ns) = length xs.
Proof.
  induction xs as [|x xs IH]; intros [|n ns] H; simpl in *;
    try reflexivity; try discriminate.
  f_equal. apply IH. lia.
Qed.

Lemma VWAP_length (data : list Bar) : length (VWAP data) = length data.
Proof.
  unfold VWAP, Cum_VP, Cum_Vol.
  rewrite zip_div_length; rewrite !cumsum_length, !length_map; reflexivity.
Qed.

(** Entry [i] of the three columns, in terms of the bars up to [i]. *)
Lemma Cum_VP_nth (data : list Bar) (i : nat) :
  (i < length data)%nat ->
  exists c, nth_error (Cum_VP data) i = Some c
            /\ c == sum_Q (map VP (firstn (S i) data)).
Proof.
  intros Hi. destruct data as [|b t]; simpl in Hi; [lia|].
  unfold Cum_VP. cbn [map]. rewrite cumsum_nth by (rewrite length_map; lia).
  eexists; split; [reflexivity|].
  rewrite fold_left_Qplus. cbn [firstn map sum_Q fold_right].
  now rewrite firstn_map.
Qed.

Lemma Cum_Vol_nth (data : list Bar) (i : nat) :
  (i < length data)%nat ->
  nth_error (Cum_Vol data) i = Some (sum_N (map Volume (firstn (S i) data))).
Proof.
  intros Hi. destruct data as [|b t]; simpl in Hi; [lia|].
  unfold Cum_Vol. cbn [map]. rewrite cumsum_nth by (rewrite length_map; lia).
  rewrite fold_left_Nadd. cbn [firstn map sum_N fold_right].
  now rewrite firstn_map.
Qed.

End Sums.

(** ** VWAP of a prefix *)

Section VwapExact.
Import Vwap Samples.

(** C1.  Row [i] of the VWAP column holds, for the bars up to and
    including row [i], the sum of typical price times volume divided by
    the sum of the volumes, whenever that volume sum is positive; the
    two agree exactly, hence within the relative tolerance 1e-9. *)
Theorem vwap_prefix_exact (data : list Bar) (i : nat) :
  (i < length data)%nat ->
  (0 < sum_N (map Volume (firstn (S i) data)))%N ->
  exists v,
    nth_error (VWAP data) i = Some (Some v)
    /\ v == vwap_formula (firstn (S i) data)
    /\ Qabs (v - vwap_formula (firstn (S i) data))
       <= tolerance * Qabs (vwap_formula (firstn (S i) data)).
Proof.
  intros Hi Hpos.
  destruct (Cum_VP_nth data i Hi) as (c & Hc & Hceq).
  pose proof (Cum_Vol_nth data i Hi) as Hn.
  exists (c / inject_Z (Z.of_N (sum_N (map Volume (firstn (S i) data))))).
  assert (Heq : c / inject_Z (Z.of_N (sum_N (map Volume (firstn (S i) data))))
                == vwap_formula (firstn (S i) data)).
  { unfold vwap_formula. rewrite Hceq. reflexivity. }
  split; [|split].
  - unfold VWAP. rewrite (zip_div_nth _ _ _ _ _ Hc Hn).
    unfold Pandas.fdiv.
    destruct (N.eqb_spec (sum_N (map Volume (firstn (S i) data))) 0) as [E|_];
      [lia|reflexivity].
  - exact Heq.
  - rewrite Heq.
    setoid_replace (vwap_formula (firstn (S i) data)
                    - vwap_formula (firstn (S i) data)) with 0 by ring.
    simpl Qabs at 1.
    apply Qmult_le_0_compat; [unfold tolerance; discriminate|].
    apply Qabs_nonneg.
Qed.

Lemma vwap_prefix_exact_witness :
  exists v,
    nth_error (VWAP scenario_A) 2 = Some (Some v)
    /\ v == vwap_formula (firstn 3 scenario_A)
    /\ Qabs (v - vwap_formula (firstn 3 scenario_A))
       <= tolerance * Qabs (vwap_formula (firstn 3 scenario_A)).
Proof.
  apply (vwap_prefix_exact scenario_A 2).
  - simpl. lia.
  - vm_compute. reflexivity.
Defined.

End VwapExact.

(** ** The ledger of [animate_onds.py] *)

Section Ledger.
Import AnimateOnds.

Lemma Qgt_b_true (a b : Q) : Qgt_b a b = true <-> b < a.
Proof.
  unfold Qgt_b. rewrite negb_true_iff.
  split; intros H.
  - apply Qnot_le_lt. intros Hle. apply Qle_bool_iff in Hle. congruence.
  - destruct (Qle_bool a b) eqn:E; [|reflexivity].
    apply Qle_bool_iff in E. exfalso. exact (Qlt_not_le _ _ H E).
Qed.

Lemma qz_add (a b : Z) : qz (a + b) == qz a + qz b.
Proof. unfold qz. rewrite inject_Z_plus. reflexivity. Qed.

Lemma qz_sub (a b : Z) : qz (a - b) == qz a - qz b.
Proof.
  unfold qz, Z.sub. rewrite inject_Z_plus, inject_Z_opp. reflexivity.
Qed.

Lemma qz_nonzero (a : Z) : a <> 0%Z -> ~ qz a == 0.
Proof.
  intros Ha H. apply Ha. unfold qz in H.
  apply (proj1 (inject_Z_injective a 0)). exact H.
Qed.

(** Cash plus the position at cost is the initial cash plus what has been
    realized; the position is never negative. *)
Definition balanced (s : sim_state) : Prop :=
  cash s + qz (position s) * avg_price s == initial_cash + realized_pnl s
  /\ (0 <= position s)%Z.

Lemma balanced_init : balanced init.
Proof. split; [vm_compute; reflexivity | simpl; lia]. Qed.

Lemma balanced_set_price (p : Q) (s : sim_state) :
  balanced s -> balanced (set_price p s).
Proof. intros H. exact H. Qed.

Lemma balanced_buy (q : Z) (s : sim_state) :
  (0 < q)%Z -> balanced s -> balanced (execute_buy q s).
Proof.
  intros Hq [Hc Hp]. unfold execute_buy.
  destruct (Qgt_b (current_price s) 0); [|now split].
  split; cbn [cash position avg_price realized_pnl]; [|lia].
  assert (Hnz : ~ qz (position s + q) == 0) by (apply qz_nonzero; lia).
  setoid_replace
    (qz (position s + q)
     * ((qz (position s) * avg_price s + current_price s * qz q)
        / qz (position s + q)))
    with (qz (position s) * avg_price s + current_price s * qz q)
    by (field; exact Hnz).
  rewrite <- Hc. ring.
Qed.

Lemma balanced_sell (q : Z) (s : sim_state) :
  balanced s -> balanced (execute_sell q s).
Proof.
  intros [Hc Hp]. unfold execute_sell.
  destruct (Qgt_b (current_price s) 0 && (0 <? position s)%Z) eqn:G;
    [|now split].
  apply andb_true_iff in G. destruct G as [_ G]. apply Z.ltb_lt in G.
  split; cbn [cash position avg_price realized_pnl]; [|lia].
  destruct (Z.eqb_spec (position s - Z.min q (position s)) 0) as [E|E].
  - rewrite E.
    assert (Hm : Z.min q (position s) = position s) by lia.
    rewrite Hm.
    setoid_replace (initial_cash + (realized_pnl s
        + (current_price s - avg_price s) * qz (position s)))
      with ((initial_cash + realized_pnl s)
            + (current_price s - avg_price s) * qz (position s)) by ring.
    rewrite <- Hc. change (qz 0) with 0. ring.
  - rewrite qz_sub.
    setoid_replace (initial_cash + (realized_pnl s
        + (current_price s - avg_price s) * qz (Z.min q (position s))))
      with ((initial_cash + realized_pnl s)
            + (current_price s - avg_price s) * qz (Z.min q (position s)))
      by ring.
    rewrite <- Hc. ring.
Qed.

Lemma balanced_run (es : list event) :
  forall s, buys_positive es -> balanced s -> balanced (run es s).
Proof.
  induction es as [|e es IH]; intros s Hb Hs; [exact Hs|].
  inversion Hb as [|e' es' He Hes]; subst.
  cbn [run fold_left]. apply IH; [exact Hes|].
  destruct e as [p|q|q]; cbn [apply].
  - now apply balanced_set_price.
  - now apply balanced_buy.
  - now apply balanced_sell.
Qed.

(** C2, as the specification states it, fails in the arithmetic the
    program runs on.  Price 10.1, buy 1, price 10.3, buy 1, price 10.2,
    sell 1, all from the initial ledger, and then the price 10.7: cash
    plus position times price is 10000.500000000002, the initial cash
    plus realized plus unrealized profit is 10000.5, in whichever order
    the three are added. *)
Lemma ledger_equation_fails_in_binary64 :
  let s := AnimateOndsFloat.run SamplesFloat.fills AnimateOndsFloat.init in
  let p := SamplesFloat.quote in
  AnimateOndsFloat.account_value p s = SamplesFloat.more
  /\ PrimFloat.add
       (PrimFloat.add AnimateOndsFloat.initial_cash
                      (AnimateOndsFloat.realized_pnl s))
       (AnimateOndsFloat.unrealized_pnl p s) = SamplesFloat.less
  /\ PrimFloat.add AnimateOndsFloat.initial_cash
                   (AnimateOndsFloat.total_pnl p s) = SamplesFloat.less
  /\ PrimFloat.eqb
       (AnimateOndsFloat.account_value p s)
       (PrimFloat.add
          (PrimFloat.add AnimateOndsFloat.initial_cash
                         (AnimateOndsFloat.realized_pnl s))
          (AnimateOndsFloat.unrealized_pnl p s)) = false.
Proof. vm_compute. repeat split. Qed.

(** C2, amended.  With every sum, product and quotient of [execute_buy]
    and [execute_sell] taken exactly (on rationals), after any sequence
    of price updates, buys and sells that starts from the initial
    ledger, and for every price [p], cash plus position times [p] equals
    the initial cash plus realized plus unrealized profit, the
    unrealized profit being [(p - avg_price) * position], which is 0
    when the position is 0. *)
Theorem ledger_conservation (es : list event) (p : Q) :
  buys_positive es ->
  account_value p (run es init)
  == initial_cash + realized_pnl (run es init)
     + unrealized_pnl p (run es init)
  /\ (position (run es init) = 0%Z -> unrealized_pnl p (run es init) == 0).
Proof.
  intros Hb.
  destruct (balanced_run es init Hb balanced_init) as [Hc _].
  unfold account_value, unrealized_pnl. split.
  - rewrite <- Hc. ring.
  - intros E. rewrite E. change (qz 0) with 0. ring.
Qed.

Lemma ledger_conservation_witness :
  account_value 12 (run Samples.fills init)
  == initial_cash + realized_pnl (run Samples.fills init)
     + unrealized_pnl 12 (run Samples.fills init)
  /\ (position (run Samples.fills init) = 0%Z
      -> unrealized_pnl 12 (run Samples.fills init) == 0).
Proof.
  apply (ledger_conservation Samples.fills 12).
  unfold Samples.fills, buys_positive.
  repeat constructor.
Defined.

End Ledger.

(** ** Fills on the ledger of [animate_onds.py] *)

Section Fills.
Import AnimateOnds.

(** C9.  At a positive price, a buy of [q > 0] shares from a position
    [position s >= 0] raises the position by [q], sets the average price
    to [(position * avg_price + q * price) / (position + q)] and lowers
    the cash by [q * price].  A sell of [q] from a held position lowers
    the position by [q], or by all that is held when that is less; when
    [q] is at least what is held, the position becomes exactly 0 and the
    average price is reset to 0; when it is less, shares remain and the
    average price is kept. *)
Theorem fill_average_price (q : Z) (s : sim_state) :
  0 < current_price s -> (0 <= position s)%Z -> (0 < q)%Z ->
  (position (execute_buy q s) = (position s + q)%Z
   /\ avg_price (execute_buy q s)
      == (qz (position s) * avg_price s + qz q * current_price s)
         / (qz (position s) + qz q)
   /\ cash (execute_buy q s) == cash s - qz q * current_price s)
  /\ ((0 < position s)%Z ->
      position (execute_sell q s) = (position s - Z.min q (position s))%Z
      /\ ((position s <= q)%Z ->
          position (execute_sell q s) = 0%Z
          /\ avg_price (execute_sell q s) = 0)
      /\ ((q < position s)%Z ->
          (0 < position (execute_sell q s))%Z
          /\ avg_price (execute_sell q s) = avg_price s)).
Proof.
  intros Hp Hpos Hq. apply Qgt_b_true in Hp. split.
  - unfold execute_buy. rewrite Hp. cbn [position avg_price cash].
    split; [reflexivity|]. split.
    + rewrite qz_add.
      setoid_replace (current_price s * qz q) with (qz q * current_price s)
        by ring.
      reflexivity.
    + ring.
  - intros Hheld. unfold execute_sell. rewrite Hp.
    destruct (Z.ltb_spec 0 (position s)) as [_|C]; [|lia].
    cbn [andb position avg_price].
    split; [reflexivity|]. split.
    + intros Hall.
      assert (Hm : Z.min q (position s) = position s) by lia.
      rewrite Hm, Z.sub_diag. cbn [Z.eqb]. split; reflexivity.
    + intros Hsome.
      assert (Hm : Z.min q (position s) = q) by lia.
      rewrite Hm.
      destruct (Z.eqb_spec (position s - q) 0) as [C|_]; [lia|].
      split; [lia | reflexivity].
Qed.

Lemma fill_average_price_witness :
  (position (execute_buy 2 Samples.two_shares) = 4%Z
   /\ avg_price (execute_buy 2 Samples.two_shares)
      == (qz 2 * avg_price Samples.two_shares + qz 2 * 12) / (qz 2 + qz 2)
   /\ cash (execute_buy 2 Samples.two_shares)
      == cash Samples.two_shares - qz 2 * 12)
  /\ position Samples.two_shares = 2%Z
  /\ position (execute_sell 2 Samples.two_shares) = 0%Z
  /\ avg_price (execute_sell 2 Samples.two_shares) = 0.
Proof.
  destruct (fill_average_price 2 Samples.two_shares) as [Hbuy Hsell].
  - vm_compute. reflexivity.
  - vm_compute. discriminate.
  - lia.
  - split; [exact Hbuy|]. split; [reflexivity|].
    destruct Hsell as (_ & Hzero & _); [vm_compute; reflexivity|].
    apply Hzero. vm_compute. discriminate.
Defined.

(** C4, as the specification states it, fails: from two held shares a
    sell of five is carried out for the two shares, and the simulator of
    [simulate_onds_vwap_only.py] sells a share it does not hold. *)
Lemma oversell_is_filled :
  (position Samples.two_shares < 5)%Z
  /\ position (execute_sell 5 Samples.two_shares) = 0%Z
  /\ position (execute_sell 5 Samples.two_shares)
     <> position Samples.two_shares
  /\ ~ cash (execute_sell 5 Samples.two_shares) == cash Samples.two_shares
  /\ Sim.position (fst (Sim.sell Sim.init)) = (-1)%Z.
Proof.
  repeat split; try (vm_compute; congruence).
Qed.

(** C4, amended.  A sell of more than is held is not rejected.  In
    [execute_sell] the quantity is cut down to the held position: at a
    positive price and with shares held, all of them are sold (position
    0, average price 0, cash up by price times the held position, realized
    profit up by [(price - avg_price)] times the held position); with
    nothing held the ledger is unchanged.  [TradingSimulator.sell] checks
    nothing: the position drops by [TRADE_QTY] and the cash rises by the
    price of [TRADE_QTY] shares. *)
Theorem sell_beyond_held (q : Z) (s : sim_state) (t : Sim.t) :
  (position s < q)%Z ->
  ((position s <= 0)%Z -> execute_sell q s = s)
  /\ ((0 < position s)%Z -> 0 < current_price s ->
      position (execute_sell q s) = 0%Z
      /\ avg_price (execute_sell q s) = 0
      /\ cash (execute_sell q s)
         == cash s + current_price s * qz (position s)
      /\ realized_pnl (execute_sell q s)
         == realized_pnl s
            + (current_price s - avg_price s) * qz (position s))
  /\ Sim.position (fst (Sim.sell t)) = (Sim.position t - Sim.TRADE_QTY)%Z
  /\ Sim.cash (fst (Sim.sell t))
     == Sim.cash t + Sim.current_price t * Sim.qz Sim.TRADE_QTY.
Proof.
  intros Hq. split; [|split; [|split]].
  - intros Hpos. unfold execute_sell.
    destruct (Z.ltb_spec 0 (position s)) as [C|_]; [lia|].
    now rewrite andb_false_r.
  - intros Hpos Hp. apply Qgt_b_true in Hp. unfold execute_sell. rewrite Hp.
    destruct (Z.ltb_spec 0 (position s)) as [_|C]; [|lia].
    cbn [andb position avg_price cash realized_pnl].
    assert (Hm : Z.min q (position s) = position s) by lia.
    rewrite Hm, Z.sub_diag. cbn [Z.eqb].
    repeat split; reflexivity.
  - reflexivity.
  - reflexivity.
Qed.

Lemma sell_beyond_held_witness :
  ((position Samples.two_shares <= 0)%Z
   -> execute_sell 5 Samples.two_shares = Samples.two_shares)
  /\ ((0 < position Samples.two_shares)%Z ->
      0 < current_price Samples.two_shares ->
      position (execute_sell 5 Samples.two_shares) = 0%Z
      /\ avg_price (execute_sell 5 Samples.two_shares) = 0
      /\ cash (execute_sell 5 Samples.two_shares)
         == cash Samples.two_shares
            + current_price Samples.two_shares
              * qz (position Samples.two_shares)
      /\ realized_pnl (execute_sell 5 Samples.two_shares)
         == realized_pnl Samples.two_shares
            + (current_price Samples.two_shares
               - avg_price Samples.two_shares)
              * qz (position Samples.two_shares))
  /\ Sim.position (fst (Sim.sell Sim.init))
     = (Sim.position Sim.init - Sim.TRADE_QTY)%Z
  /\ Sim.cash (fst (Sim.sell Sim.init))
     == Sim.cash Sim.init
        + Sim.current_price Sim.init * Sim.qz Sim.TRADE_QTY.
Proof.
  apply (sell_beyond_held 5 Samples.two_shares Sim.init).
  vm_compute. reflexivity.
Defined.

End Fills.

(** ** Timestamps play no part in the VWAP columns *)

Section Ingest.
Import Pandas Vwap.

Lemma iloc_neg_last {A : Type} (l : list A) (y : A) :
  iloc_neg (l ++ [y]) 1 = Some y.
Proof.
  unfold iloc_neg. rewrite length_app. cbn [length].
  destruct (Nat.ltb_spec (length l + 1) 1) as [C|_]; [lia|].
  replace (length l + 1 - 1)%nat with (length l) by lia.
  rewrite nth_error_app2 by lia. now rewrite Nat.sub_diag.
Qed.

Lemma cumsum_snoc {A : Type} (add : A -> A -> A) (x : A) (t : list A) (y : A) :
  cumsum add ((x :: t) ++ [y])
  = cumsum add (x :: t) ++ [add (fold_left add t x) y].
Proof. cbn [app cumsum]. now rewrite cumsum_acc_app. Qed.

Lemma iloc_neg_cumsum {A : Type} (add : A -> A -> A) (x : A) (t : list A) :
  iloc_neg (cumsum add (x :: t)) 1 = Some (fold_left add t x).
Proof.
  unfold iloc_neg. rewrite cumsum_length. cbn [length].
  destruct (Nat.ltb_spec (S (length t)) 1) as [C|_]; [lia|].
  rewrite cumsum_nth by lia.
  replace (S (length t) - 1)%nat with (length t) by lia.
  now rewrite firstn_all.
Qed.

Lemma zip_div_snoc (xs : list Q) :
  forall ns x n, length xs = length ns ->
    zip_div (xs ++ [x]) (ns ++ [n]) = zip_div xs ns ++ [fdiv x n].
Proof.
  induction xs as [|x0 xs IH]; intros [|n0 ns] x n H; simpl in *;
    try discriminate; [reflexivity|].
  rewrite IH by lia. reflexivity.
Qed.

(** The running values after a non-empty frame. *)
Lemma engine_state_cons (x : Bar) (t : list Bar) :
  engine_state (x :: t)
  = Some (mkVWAPState
            (fold_left Qplus (map VP t) (VP x))
            (fold_left N.add (map Volume t) (Volume x))
            (fdiv (fold_left Qplus (map VP t) (VP x))
                  (fold_left N.add (map Volume t) (Volume x)))).
Proof.
  unfold engine_state, Cum_VP, Cum_Vol. cbn [map].
  rewrite !iloc_neg_cumsum.
  destruct (exists_last (l := x :: t)) as (l' & z & E); [discriminate|].
  unfold VWAP, Cum_VP, Cum_Vol. rewrite E.
  destruct l' as [|x' t'].
  - cbn [app] in E. inversion E; subst. reflexivity.
  - cbn [app] in E. injection E as Hx Ht. subst x' t.
    rewrite !map_app. cbn [map app].
    change (VP x :: map VP t' ++ [VP z]) with ((VP x :: map VP t') ++ [VP z]).
    change (Volume x :: map Volume t' ++ [Volume z])
      with ((Volume x :: map Volume t') ++ [Volume z]).
    rewrite !cumsum_snoc.
    rewrite zip_div_snoc
      by (rewrite !cumsum_length; cbn [length]; now rewrite !length_map).
    rewrite iloc_neg_last.
    rewrite !fold_left_app. reflexivity.
Qed.

(** C3, as the specification states it, fails: a bar stamped 09:30 that
    follows a bar stamped 09:31 is accumulated like any other. *)
Lemma out_of_order_bar_is_accumulated :
  (Datetime Samples.bar_0930 < Datetime Samples.bar_0931)%Z
  /\ option_map cumulativeVolume (engine_state [Samples.bar_0931])
     = Some 100%N
  /\ option_map cumulativeVolume
       (engine_state ([Samples.bar_0931] ++ [Samples.bar_0930]))
     = Some 200%N
  /\ engine_state ([Samples.bar_0931] ++ [Samples.bar_0930])
     <> engine_state [Samples.bar_0931].
Proof.
  split; [reflexivity|]. split; [reflexivity|]. split; [reflexivity|].
  intros H. apply (f_equal (option_map cumulativeVolume)) in H.
  vm_compute in H. discriminate.
Qed.

(** C3, amended.  The VWAP computation never looks at timestamps and
    rejects nothing: whatever the timestamp of the next bar, the running
    sums grow by its [VP] and its [Volume] and the VWAP is their
    quotient. *)
Theorem ingest_accumulates_any_bar (data : list Bar) (b : Bar)
        (st : VWAPState) :
  engine_state data = Some st ->
  engine_state (data ++ [b])
  = Some (mkVWAPState
            (cumulativeVolumePrice st + VP b)
            (cumulativeVolume st + Volume b)
            (fdiv (cumulativeVolumePrice st + VP b)
                  (cumulativeVolume st + Volume b))).
Proof.
  intros H. destruct data as [|x t]; [discriminate|].
  rewrite engine_state_cons in H. inversion H; subst st; clear H.
  cbn [cumulativeVolumePrice cumulativeVolume].
  change ((x :: t) ++ [b]) with (x :: (t ++ [b])).
  rewrite engine_state_cons, !map_app, !fold_left_app. reflexivity.
Qed.

Lemma ingest_accumulates_any_bar_witness :
  engine_state ([Samples.bar_0931] ++ [Samples.bar_0930])
  = Some (mkVWAPState
            (VP Samples.bar_0931 + VP Samples.bar_0930)
            (Volume Samples.bar_0931 + Volume Samples.bar_0930)
            (fdiv (VP Samples.bar_0931 + VP Samples.bar_0930)
                  (Volume Samples.bar_0931 + Volume Samples.bar_0930))).
Proof.
  apply (ingest_accumulates_any_bar [Samples.bar_0931] Samples.bar_0930
           (mkVWAPState (VP Samples.bar_0931) (Volume Samples.bar_0931)
              (fdiv (VP Samples.bar_0931) (Volume Samples.bar_0931)))).
  reflexivity.
Defined.

End Ingest.

(** ** The deviation band *)

Section Bands.
Import Pandas Vwap Sim.

Lemma increase_dev_nonneg (s : t) :
  0 <= deviation s -> 0 <= deviation (increase_dev s).
Proof.
  intros H. cbn [increase_dev deviation].
  apply (Qle_trans _ (deviation s + 0)).
  - now rewrite Qplus_0_r.
  - apply Qplus_le_r. discriminate.
Qed.

Lemma decrease_dev_nonneg (s : t) : 0 <= deviation (decrease_dev s).
Proof. cbn [decrease_dev deviation]. apply Q.le_max_l. Qed.

Lemma press_all_nonneg (bs : list dev_button) :
  forall s, 0 <= deviation s -> 0 <= deviation (press_all bs s).
Proof.
  induction bs as [|b bs IH]; intros s H; [exact H|].
  cbn [press_all fold_left]. apply IH. destruct b; cbn [press].
  - now apply increase_dev_nonneg.
  - apply decrease_dev_nonneg.
Qed.

Lemma sum_Q_nonneg (l : list Q) : Forall (fun x => 0 <= x) l -> 0 <= sum_Q l.
Proof.
  induction 1 as [|x l Hx _ IH]; cbn [sum_Q fold_right]; [apply Qle_refl|].
  change (sum_Q l) with (fold_right Qplus 0 l) in IH.
  apply (Qle_trans _ (0 + 0)); [discriminate|].
  now apply Qplus_le_compat.
Qed.

Lemma vol_nonneg (b : Bar) : 0 <= vol b.
Proof.
  unfold vol. change 0 with (inject_Z 0). rewrite <- Zle_Qle. lia.
Qed.

(** Bars with non-negative prices give a non-negative VWAP. *)
Lemma VWAP_nonneg (data : list Bar) (i : nat) (v : Q) :
  Forall (fun b => 0 <= High b + Low b + Close b) data ->
  nth_error (VWAP data) i = Some (Some v) -> 0 <= v.
Proof.
  intros Hall Hv.
  assert (Hi : (i < length data)%nat).
  { rewrite <- VWAP_length. apply nth_error_Some. congruence. }
  destruct (Cum_VP_nth data i Hi) as (c & Hc & Hceq).
  pose proof (Cum_Vol_nth data i Hi) as Hn.
  unfold VWAP in Hv. rewrite (zip_div_nth _ _ _ _ _ Hc Hn) in Hv.
  unfold fdiv in Hv.
  destruct (N.eqb_spec (sum_N (map Volume (firstn (S i) data))) 0) as [E|E];
    [discriminate|].
  injection Hv as Hv. subst v.
  assert (Hc0 : 0 <= c).
  { rewrite Hceq. apply sum_Q_nonneg. apply Forall_map.
    rewrite <- (firstn_skipn (S i) data) in Hall.
    apply Forall_app in Hall. destruct Hall as [Hpre _].
    revert Hpre. apply Forall_impl. intros b Hb.
    unfold VP, Typical_Price.
    apply Qmult_le_0_compat; [|apply vol_nonneg].
    unfold Qdiv. apply Qmult_le_0_compat; [exact Hb | discriminate]. }
  unfold Qdiv. apply Qmult_le_0_compat; [exact Hc0|].
  apply Qinv_le_0_compat.
  change 0 with (inject_Z 0). rewrite <- Zle_Qle. lia.
Qed.

(** C8.  For every deviation reachable with the deviation buttons, every
    day of bars whose typical prices are not negative and every row whose
    VWAP is defined, the deviation is not negative, the bands of the row
    are [vwap * (1 - deviation)] and [vwap * (1 + deviation)], and the
    lower band is at most the VWAP and the VWAP at most the upper
    band. *)
Theorem band_ordering (bs : list dev_button) (data : list Bar) (i : nat)
        (v : Q) :
  Forall (fun b => 0 <= High b + Low b + Close b) data ->
  nth_error (VWAP data) i = Some (Some v) ->
  0 <= deviation (press_all bs init)
  /\ nth_error (lower_band (deviation (press_all bs init)) (VWAP data)) i
     = Some (Some (v * (1 - deviation (press_all bs init))))
  /\ nth_error (upper_band (deviation (press_all bs init)) (VWAP data)) i
     = Some (Some (v * (1 + deviation (press_all bs init))))
  /\ v * (1 - deviation (press_all bs init)) <= v
  /\ v <= v * (1 + deviation (press_all bs init)).
Proof.
  intros Hall Hv.
  pose proof (VWAP_nonneg data i v Hall Hv) as Hv0.
  assert (Hd : 0 <= deviation (press_all bs init))
    by (apply press_all_nonneg; discriminate).
  set (d := deviation (press_all bs init)) in *.
  assert (Hvd : 0 <= v * d) by now apply Qmult_le_0_compat.
  split; [exact Hd|]. split; [|split; [|split]].
  - unfold lower_band. now rewrite nth_error_map, Hv.
  - unfold upper_band. now rewrite nth_error_map, Hv.
  - setoid_replace (v * (1 - d)) with (v - v * d) by ring. lra.
  - setoid_replace (v * (1 + d)) with (v + v * d) by ring. lra.
Qed.

Lemma band_ordering_witness :
  0 <= deviation (press_all [Minus; Plus; Plus] init)
  /\ nth_error (lower_band (deviation (press_all [Minus; Plus; Plus] init))
                           (VWAP Samples.scenario_A)) 4
     = Some (Some (Samples.vwap_A
                   * (1 - deviation (press_all [Minus; Plus; Plus] init))))
  /\ nth_error (upper_band (deviation (press_all [Minus; Plus; Plus] init))
                           (VWAP Samples.scenario_A)) 4
     = Some (Some (Samples.vwap_A
                   * (1 + deviation (press_all [Minus; Plus; Plus] init))))
  /\ Samples.vwap_A * (1 - deviation (press_all [Minus; Plus; Plus] init))
     <= Samples.vwap_A
  /\ Samples.vwap_A
     <= Samples.vwap_A * (1 + deviation (press_all [Minus; Plus; Plus] init)).
Proof.
  apply (band_ordering [Minus; Plus; Plus] Samples.scenario_A 4 Samples.vwap_A).
  - unfold Samples.scenario_A. repeat constructor; vm_compute; discriminate.
  - vm_compute. reflexivity.
Defined.

End Bands.

(** ** The auto-trade rules of the simulator *)

Section AutoTrade.
Import Pandas Vwap Sim.

Lemma iloc_neg_Some {A : Type} (l : list A) (k : nat) :
  (1 <= k)%nat -> (k <= length l)%nat -> exists x, iloc_neg l k = Some x.
Proof.
  intros Hk Hl. unfold iloc_neg.
  destruct (Nat.ltb_spec (length l) k) as [C|_]; [lia|].
  destruct (nth_error l (length l - k)) as [x|] eqn:E; [now exists x|].
  apply nth_error_None in E. lia.
Qed.

Lemma iloc_neg_None {A : Type} (l : list A) (k : nat) :
  (length l < k)%nat -> iloc_neg l k = None.
Proof.
  intros H. unfold iloc_neg.
  destruct (Nat.ltb_spec (length l) k) as [_|C]; [reflexivity|lia].
Qed.

Lemma check_auto_trade_short (subset : list Row) (u l : option Q) (s : t) :
  (length subset < 5)%nat -> check_auto_trade subset u l s = Some (s, []).
Proof.
  intros H. unfold check_auto_trade.
  destruct (Nat.ltb_spec (length subset) 5) as [_|C]; [|lia].
  now rewrite orb_true_r.
Qed.

Lemma animate_short (data : list Bar) (i : nat) (s : t) :
  (i + 1 < 5)%nat ->
  exists s', animate data i s = Some (s', [])
             /\ deviation s' = deviation s
             /\ cash s' = cash s /\ position s' = position s.
Proof.
  intros Hi. unfold animate. cbn [current_idx set_idx].
  set (subset := iloc_upto (i + 1) (frame data)).
  assert (Hlen : (length subset <= i + 1)%nat)
    by (unfold subset, iloc_upto; rewrite length_firstn; lia).
  destruct subset as [|r rest] eqn:E.
  - eexists. split; [reflexivity|]. repeat split.
  - rewrite <- E in *.
    assert (Hne : (1 <= length subset)%nat) by (rewrite E; cbn; lia).
    destruct (iloc_neg_Some (col_Close subset) 1) as [c Hc];
      [lia | unfold col_Close; now rewrite length_map |].
    rewrite Hc.
    set (s1 := update_metrics (set_price c (set_idx (i + 1) s))).
    destruct (iloc_neg_Some (upper_band (deviation s1) (col_VWAP subset)) 1)
      as [u Hu];
      [lia | unfold upper_band, col_VWAP; now rewrite !length_map |].
    destruct (iloc_neg_Some (lower_band (deviation s1) (col_VWAP subset)) 1)
      as [l Hl];
      [lia | unfold lower_band, col_VWAP; now rewrite !length_map |].
    rewrite Hu, Hl, check_auto_trade_short by lia.
    exists s1. repeat split.
Qed.

(** C6.  With fewer than four rows visible [check_auto_trade] of the
    simulator returns at once, with the state as it was and nothing
    printed; a frame that shows fewer than four bars produces no output;
    the real trader sends no request either (with auto-trade on, its
    lookup three rows back fails before any request). *)
Theorem short_history_no_signal (subset : list Row) (u l : option Q)
        (s : t) (enabled : bool) (reads : nat -> Q) (data : list Bar)
        (i : nat) :
  (length subset < 4)%nat -> (i + 1 < 4)%nat ->
  check_auto_trade subset u l s = Some (s, [])
  /\ (exists s', animate data i s = Some (s', []))
  /\ Real.check_auto_trade enabled reads subset u l
     = (if enabled then None else Some []).
Proof.
  intros Hlen Hi. split; [|split].
  - apply check_auto_trade_short. lia.
  - destruct (animate_short data i s) as (s' & H & _); [lia|].
    now exists s'.
  - unfold Real.check_auto_trade. destruct enabled; [|reflexivity].
    cbn [negb].
    rewrite (iloc_neg_None (Real.col_VWAP subset) 4)
      by (unfold Real.col_VWAP; now rewrite length_map).
    now destruct (iloc_neg (Real.col_VWAP subset) 1).
Qed.

Lemma short_history_no_signal_witness :
  check_auto_trade (iloc_upto 3 (frame Samples.scenario_A))
                   (Some 10.2683) (Some 10.065) init
  = Some (init, [])
  /\ (exists s', animate Samples.scenario_A 2 init = Some (s', []))
  /\ Real.check_auto_trade true (fun _ => 0)
                           (iloc_upto 3 (frame Samples.scenario_A))
                           (Some 10.2683) (Some 10.065)
     = None.
Proof.
  apply (short_history_no_signal (iloc_upto 3 (frame Samples.scenario_A))
           (Some 10.2683) (Some 10.065) init true (fun _ => 0)
           Samples.scenario_A 2).
  - vm_compute. reflexivity.
  - vm_compute. reflexivity.
Defined.

(** C10.  With a position of 0 [close_position] returns at once: the
    simulator keeps its state and prints nothing, and the real trader
    sends no request. *)
Theorem close_position_flat_is_noop (s : t) (qty : Q) :
  position s = 0%Z -> qty == 0 ->
  close_position s = (s, []) /\ Real.close_position qty = [].
Proof.
  intros Hp Hq. split.
  - unfold close_position. now rewrite Hp.
  - unfold Real.close_position, Real.Qgt_b, Real.Qlt_b.
    assert (H1 : Qle_bool qty 0 = true)
      by (apply Qle_bool_iff; rewrite Hq; apply Qle_refl).
    assert (H2 : Qle_bool 0 qty = true)
      by (apply Qle_bool_iff; rewrite Hq; apply Qle_refl).
    now rewrite H1, H2.
Qed.

Lemma close_position_flat_is_noop_witness :
  close_position init = (init, []) /\ Real.close_position 0 = [].
Proof.
  apply (close_position_flat_is_noop init 0).
  - reflexivity.
  - reflexivity.
Defined.

End AutoTrade.

(** ** Signals per frame *)

Section Signals.
Import Pandas Vwap Sim.

Lemma Sim_Qgt_b_true (a b : Q) : Qgt_b a b = true <-> b < a.
Proof.
  unfold Qgt_b. rewrite negb_true_iff.
  split; intros H.
  - apply Qnot_le_lt. intros Hle. apply Qle_bool_iff in Hle. congruence.
  - destruct (Qle_bool a b) eqn:E; [|reflexivity].
    apply Qle_bool_iff in E. exfalso. exact (Qlt_not_le _ _ H E).
Qed.

(** With auto-trade on and five rows or more the lookups succeed and the
    rules are applied to the tests of the last row. *)
Lemma check_auto_trade_long (subset : list Row) (u l : option Q) (s : t) :
  auto_trade_enabled s = true -> (5 <= length subset)%nat ->
  check_auto_trade subset u l s
  = Some (apply_rules (is_uptrend subset) (low_touches subset l)
                      (high_touches subset u) s).
Proof.
  intros He Hlen. unfold check_auto_trade. rewrite He. cbn [negb orb].
  destruct (Nat.ltb_spec (length subset) 5) as [C|_]; [lia|].
  unfold Row in *.
  destruct (iloc_neg_Some (col_VWAP subset) 1) as [cur Hcur];
    [lia | unfold col_VWAP; rewrite length_map; lia |].
  destruct (iloc_neg_Some (col_VWAP subset) 4) as [past Hpast];
    [lia | unfold col_VWAP; rewrite length_map; lia |].
  destruct (iloc_neg_Some (col_Low subset) 1) as [lo Hlo];
    [lia | unfold col_Low; rewrite length_map; lia |].
  destruct (iloc_neg_Some (col_High subset) 1) as [hi Hhi];
    [lia | unfold col_High; rewrite length_map; lia |].
  unfold is_uptrend, low_touches, high_touches.
  rewrite Hcur, Hpast, Hlo, Hhi. reflexivity.
Qed.

(** [check_auto_trade] of the simulator never raises. *)
Lemma check_auto_trade_total (subset : list Row) (u l : option Q) (s : t) :
  check_auto_trade subset u l s
  = Some (if auto_trade_enabled s && (5 <=? length subset)%nat
          then apply_rules (is_uptrend subset) (low_touches subset l)
                           (high_touches subset u) s
          else (s, [])).
Proof.
  destruct (auto_trade_enabled s) eqn:He.
  - destruct (Nat.leb_spec 5 (length subset)) as [H|H]; cbn [andb].
    + now apply check_auto_trade_long.
    + apply check_auto_trade_short. lia.
  - cbn [andb]. unfold check_auto_trade. now rewrite He.
Qed.

Ltac run_rules :=
  unfold apply_rules, seq, print, buy, close_position;
  cbn [position pl cash update_metrics current_price deviation
       auto_trade_enabled fst snd app].

(** The rules leave the deviation and the auto-trade switch alone. *)
Lemma apply_rules_settings (up lo hi : bool) (s : t) :
  deviation (fst (apply_rules up lo hi s)) = deviation s
  /\ auto_trade_enabled (fst (apply_rules up lo hi s))
     = auto_trade_enabled s.
Proof.
  run_rules.
  destruct up, lo; cbn [andb negb];
    repeat match goal with
           | |- context [if ?c then _ else _] => destruct c
           end; cbn; split; reflexivity.
Qed.

(** The signals of one frame: nothing, a BUY, a CLOSE, or a BUY followed
    by a CLOSE. *)
Lemma apply_rules_signals (up lo hi : bool) (s : t) :
  let o := snd (apply_rules up lo hi s) in
  signals o = [] \/ signals o = [BUY] \/ signals o = [CLOSE]
  \/ signals o = [BUY; CLOSE].
Proof.
  run_rules.
  destruct up, lo; cbn [andb negb];
    repeat match goal with
           | |- context [if ?c then _ else _] => destruct c eqn:?
           end; cbn; try tauto.
  all: exfalso.
  all: repeat match goal with
         | H : (_ <? _)%Z = true |- _ => apply Z.ltb_lt in H
         | H : (_ =? _)%Z = false |- _ => apply Z.eqb_neq in H
         | H : (_ =? _)%Z = true |- _ => apply Z.eqb_eq in H
         end; cbn in *; try lia.
Qed.


(** C5, as the specification states it, fails: on the sixth frame of the
    rising sample the simulator buys and then closes, two signals on one
    frame. *)
Lemma buy_and_close_on_one_frame :
  match frames Samples.rising 0 5 init with
  | Some (s5, _) =>
      match animate Samples.rising 5 s5 with
      | Some (_, o) =>
          signals o = [BUY; CLOSE] /\ (1 < length (signals o))%nat
      | None => False
      end
  | None => False
  end.
Proof. vm_compute. split; [reflexivity | repeat constructor]. Qed.





End Signals.

(** ** The replay loop of [animate_onds.py] *)

Section ReplayLoop.
Import Pandas AnimateOnds.

Lemma lt_nan_not_gt (a : Q) (b : option Q) :
  lt_nan a b = true -> gt_nan_r a b = false.
Proof.
  destruct b as [y|]; cbn; [|discriminate].
  rewrite negb_true_iff, negb_false_iff. intros H.
  apply Qle_bool_iff. apply Qlt_le_weak. apply Qnot_le_lt.
  intros C. apply Qle_bool_iff in C. congruence.
Qed.

(** The calls of one pass. *)
Lemma loop_body_calls (row : Vwap.Bar * option Q)
        (ls : loop_state) :
  (snd (loop_body row ls) = []
   \/ snd (loop_body row ls) = [CallBuy 1]
   \/ (snd (loop_body row ls) = [CallSell (position (ledger ls))]
       /\ (0 < position (ledger ls))%Z))
  /\ (prev_close ls = None -> snd (loop_body row ls) = []).
Proof.
  unfold loop_body.
  destruct (prev_close ls) as [pc|]; [|split; [left|]; reflexivity].
  split; [|discriminate].
  destruct (prev_lower ls) as [pl|]; [|left; reflexivity].
  unfold auto_trade.
  destruct (lt_nan pc pl) eqn:Hlt; cbn [andb].
  - rewrite (lt_nan_not_gt _ _ Hlt). cbn [andb].
    destruct (gt_nan_r _ _); cbn; [right; left | left]; reflexivity.
  - destruct (gt_nan_r pc pl && lt_nan _ _); [|left; reflexivity].
    cbn [position set_price].
    destruct (Z.ltb_spec 0 (position (ledger ls))) as [H|H];
      [right; right; now split | left; reflexivity].
Qed.

(** The two tests of the loop exclude each other, so a pass makes at most
    one call: nothing, a buy of one share, or a sell of all shares held;
    the first pass, with no bar before it, makes none. *)
Theorem loop_one_call_per_pass (row : Vwap.Bar * option Q)
        (ls : loop_state) :
  (snd (loop_body row ls) = []
   \/ snd (loop_body row ls) = [CallBuy 1]
   \/ (snd (loop_body row ls) = [CallSell (position (ledger ls))]
       /\ (0 < position (ledger ls))%Z))
  /\ (prev_close ls = None -> snd (loop_body row ls) = []).
Proof. exact (loop_body_calls row ls). Qed.

(** The sell of the loop is all or nothing: when a pass sells at a
    positive close, the position ends at 0 with average price 0 and the
    cash grows by the close times the shares that were held. *)
Theorem loop_sell_closes_position (row : Vwap.Bar * option Q)
        (ls : loop_state) (q : Z) :
  snd (loop_body row ls) = [CallSell q] ->
  0 < Vwap.Close (fst row) ->
  q = position (ledger ls)
  /\ position (ledger (fst (loop_body row ls))) = 0%Z
  /\ avg_price (ledger (fst (loop_body row ls))) = 0
  /\ cash (ledger (fst (loop_body row ls)))
     == cash (ledger ls) + Vwap.Close (fst row) * qz (position (ledger ls)).
Proof.
  intros Hcall Hpos.
  destruct (loop_body_calls row ls) as [[H|[H|[H Hheld]]] _];
    rewrite H in Hcall; try discriminate.
  injection Hcall as Hq. split; [now symmetry|]. clear Hq.
  revert H. unfold loop_body.
  destruct (prev_close ls) as [pc|]; [|discriminate].
  destruct (prev_lower ls) as [pl|]; [|discriminate].
  unfold auto_trade.
  destruct (lt_nan pc pl) eqn:Hlt; cbn [andb].
  - rewrite (lt_nan_not_gt _ _ Hlt). cbn [andb].
    destruct (gt_nan_r _ _); cbn; discriminate.
  - destruct (gt_nan_r pc pl && lt_nan _ _); [|discriminate].
    cbn [position set_price].
    destruct (Z.ltb_spec 0 (position (ledger ls))) as [_|C]; [|lia].
    intros _. cbn [fst ledger].
    unfold execute_sell. cbn [current_price set_price position].
    apply Qgt_b_true in Hpos. rewrite Hpos.
    destruct (Z.ltb_spec 0 (position (ledger ls))) as [_|C]; [|lia].
    cbn [andb position avg_price cash].
    rewrite Z.min_id, Z.sub_diag. cbn [Z.eqb].
    repeat split; reflexivity.
Qed.

Lemma loop_sell_closes_position_witness :
  2%Z = position (ledger Samples.holding_loop)
  /\ position (ledger (fst (loop_body Samples.breakdown_row
                                      Samples.holding_loop))) = 0%Z
  /\ avg_price (ledger (fst (loop_body Samples.breakdown_row
                                       Samples.holding_loop))) = 0
  /\ cash (ledger (fst (loop_body Samples.breakdown_row
                                  Samples.holding_loop)))
     == cash (ledger Samples.holding_loop)
        + Vwap.Close (fst Samples.breakdown_row)
          * qz (position (ledger Samples.holding_loop)).
Proof.
  apply (loop_sell_closes_position Samples.breakdown_row
           Samples.holding_loop 2).
  - vm_compute. reflexivity.
  - vm_compute. reflexivity.
Defined.

(** What every session keeps: the books balance, the position is not
    negative, a flat ledger has average price 0, and the deviation is not
    negative. *)
Definition sound (s : sim_state) : Prop :=
  balanced s
  /\ (position s = 0%Z -> avg_price s = 0)
  /\ 0 <= deviation s.

Lemma sound_init : sound init.
Proof.
  split; [apply balanced_init|]. split; [reflexivity | discriminate].
Qed.

Lemma sound_set_price (p : Q) (s : sim_state) : sound s -> sound (set_price p s).
Proof. intros H. exact H. Qed.

Lemma sound_buy (q : Z) (s : sim_state) :
  (0 < q)%Z -> sound s -> sound (execute_buy q s).
Proof.
  intros Hq (Hb & Hf & Hd). split; [now apply balanced_buy|].
  destruct Hb as [_ Hp]. unfold execute_buy.
  destruct (Qgt_b (current_price s) 0); [|now split].
  cbn [position avg_price deviation]. split; [lia | exact Hd].
Qed.

Lemma sound_sell (q : Z) (s : sim_state) : sound s -> sound (execute_sell q s).
Proof.
  intros (Hb & Hf & Hd). split; [now apply balanced_sell|].
  unfold execute_sell.
  destruct (Qgt_b (current_price s) 0 && (0 <? position s)%Z); [|now split].
  cbn [position avg_price deviation]. split; [|exact Hd].
  intros E. rewrite E. reflexivity.
Qed.

Lemma sound_on_key (k : key) (s : sim_state) : sound s -> sound (on_key k s).
Proof.
  intros (Hb & Hf & Hd). destruct k; cbn [on_key];
    [| |split; [exact Hb|]; split; [exact Hf | exact Hd]].
  - split; [exact Hb|]. split; [exact Hf|]. cbn [deviation].
    apply (Qle_trans _ (deviation s + 0)).
    + now rewrite Qplus_0_r.
    + apply Qplus_le_r. discriminate.
  - split; [exact Hb|]. split; [exact Hf|]. cbn [deviation].
    apply Q.le_max_l.
Qed.

Lemma sound_auto_trade (pc : Q) (pl : option Q) (c : Q) (l : option Q)
      (s : sim_state) :
  sound s -> sound (fst (auto_trade pc pl c l s)).
Proof.
  intros H. unfold auto_trade.
  destruct (lt_nan pc pl && gt_nan_r c l).
  - assert (Hb : sound (execute_buy 1 s)) by (apply sound_buy; [lia|exact H]).
    destruct (gt_nan_r pc pl && lt_nan c l); [|exact Hb].
    destruct (0 <? position (execute_buy 1 s))%Z; [|exact Hb].
    cbn [fst]. now apply sound_sell.
  - destruct (gt_nan_r pc pl && lt_nan c l); [|exact H].
    destruct (0 <? position s)%Z; [|exact H].
    cbn [fst]. now apply sound_sell.
Qed.

Lemma sound_act (a : action) (ls : loop_state) :
  sound (ledger ls) -> sound (ledger (act a ls)).
Proof.
  intros H. destruct a as [row|k| |]; cbn [act on_ledger ledger].
  - unfold loop_body.
    destruct (prev_close ls) as [pc|]; [|exact H].
    destruct (prev_lower ls) as [pl|]; [|exact H].
    pose proof (sound_auto_trade pc pl (Vwap.Close (fst row))
                  (mul_nan (snd row)
                     (1 - deviation (set_price (Vwap.Close (fst row))
                                               (ledger ls))))
                  (set_price (Vwap.Close (fst row)) (ledger ls))
                  (sound_set_price _ _ H)) as Ha.
    destruct (auto_trade _ _ _ _ _) as [s1 calls]. exact Ha.
  - now apply sound_on_key.
  - apply sound_buy; [lia|exact H].
  - now apply sound_sell.
Qed.

Lemma sound_session (acts : list action) :
  forall ls, sound (ledger ls) -> sound (ledger (session acts ls)).
Proof.
  induction acts as [|a acts IH]; intros ls H; [exact H|].
  cbn [session fold_left]. apply IH. now apply sound_act.
Qed.

(** No session goes short, a flat ledger carries no average price, and
    the deviation never becomes negative. *)
Theorem session_never_short (acts : list action) :
  (0 <= position (ledger (session acts loop_init)))%Z
  /\ (position (ledger (session acts loop_init)) = 0%Z
      -> avg_price (ledger (session acts loop_init)) = 0)
  /\ 0 <= deviation (ledger (session acts loop_init)).
Proof.
  destruct (sound_session acts loop_init sound_init) as ([_ Hp] & Hf & Hd).
  repeat split; assumption.
Qed.

End ReplayLoop.

(** ** The simulator: trades, frames and buttons *)

Section Simulator.
Import Pandas Vwap Sim.

Lemma consistent_update_metrics (s : t) : consistent (update_metrics s).
Proof. split; cbn; reflexivity. Qed.

Ltac split_rules :=
  unfold apply_rules, seq, print, buy, close_position;
  repeat match goal with
         | |- context [if ?c then _ else _] => destruct c eqn:?
         end;
  cbn [fst snd app].

(** The rules keep the books up to date, the price and the frame counter,
    and never leave a short position behind. *)
Lemma apply_rules_keeps (up lo hi : bool) (s : t) :
  consistent s ->
  consistent (fst (apply_rules up lo hi s))
  /\ current_price (fst (apply_rules up lo hi s)) = current_price s
  /\ current_idx (fst (apply_rules up lo hi s)) = current_idx s
  /\ ((0 <= position s)%Z -> (0 <= position (fst (apply_rules up lo hi s)))%Z).
Proof.
  intros Hc. split_rules.
  all: split; [first [exact Hc | split; cbn; reflexivity]|].
  all: split; [reflexivity|]; split; [reflexivity|].
  all: cbn [position update_metrics]; unfold TRADE_QTY; intros; lia.
Qed.

Lemma col_Close_frame (data : list Bar) (n : nat) :
  col_Close (iloc_upto n (frame data)) = firstn n (map Close data).
Proof.
  unfold col_Close, iloc_upto, frame.
  rewrite <- firstn_map. f_equal.
  assert (H : length data = length (VWAP data)) by now rewrite VWAP_length.
  revert H. generalize (VWAP data). induction data as [|b t IH];
    intros [|w ws] H; cbn in *; try discriminate; [reflexivity|].
  f_equal. apply IH. lia.
Qed.

Lemma frame_length (data : list Bar) : length (frame data) = length data.
Proof.
  unfold frame, Row. rewrite length_combine, VWAP_length. lia.
Qed.

(** What a frame does: nothing on an empty frame, else the price update
    followed by [check_auto_trade], which never raises. *)
Lemma animate_cases (data : list Bar) (i : nat) (s : t) :
  (data = [] /\ animate data i s = Some (set_idx (i + 1) s, []))
  \/ exists c up lo hi,
       iloc_neg (col_Close (iloc_upto (i + 1) (frame data))) 1 = Some c
       /\ animate data i s
          = Some (if auto_trade_enabled s
                     && (5 <=? length (iloc_upto (i + 1) (frame data)))%nat
                  then apply_rules up lo hi
                         (update_metrics (set_price c (set_idx (i + 1) s)))
                  else (update_metrics (set_price c (set_idx (i + 1) s)),
                        [])).
Proof.
  unfold animate. cbn [current_idx set_idx].
  set (subset := iloc_upto (i + 1) (frame data)).
  destruct subset as [|r rest] eqn:E.
  - left. split; [|reflexivity].
    unfold subset, iloc_upto in E.
    assert (H : length (firstn (i + 1) (frame data)) = 0%nat) by now rewrite E.
    rewrite length_firstn, frame_length in H.
    destruct data; [reflexivity | cbn in H; lia].
  - right. rewrite <- E.
    assert (Hne : (1 <= length subset)%nat) by (rewrite E; cbn; lia).
    unfold Row in *.
    destruct (iloc_neg_Some (col_Close subset) 1) as [c Hc];
      [lia | unfold col_Close; now rewrite length_map |].
    rewrite Hc.
    set (s1 := update_metrics (set_price c (set_idx (i + 1) s))).
    destruct (iloc_neg_Some (upper_band (deviation s1) (col_VWAP subset)) 1)
      as [u Hu];
      [lia | unfold upper_band, col_VWAP; now rewrite !length_map |].
    destruct (iloc_neg_Some (lower_band (deviation s1) (col_VWAP subset)) 1)
      as [l Hl];
      [lia | unfold lower_band, col_VWAP; now rewrite !length_map |].
    rewrite Hu, Hl, check_auto_trade_total.
    exists c, (is_uptrend subset), (low_touches subset l),
           (high_touches subset u).
    split; reflexivity.
Qed.

(** After the frame of bar [i] the simulator shows that bar: the frame
    counter is [i + 1], the price is the close of the bar, and equity and
    profit are up to date with the cash and the position that the
    auto-trade left. *)
Theorem frame_shows_bar (data : list Bar) (i : nat) (s : t) (b : Bar) :
  nth_error data i = Some b ->
  exists s' o,
    animate data i s = Some (s', o)
    /\ current_idx s' = (i + 1)%nat
    /\ current_price s' = Close b
    /\ consistent s'.
Proof.
  intros Hb.
  destruct (animate_cases data i s) as [[E _]|(c & up & lo & hi & Hc & Ha)].
  - subst data. destruct i; discriminate.
  - assert (Hi : (i < length data)%nat)
      by (apply nth_error_Some; congruence).
    assert (Ec : c = Close b).
    { rewrite col_Close_frame in Hc. unfold iloc_neg in Hc.
      rewrite length_firstn, length_map in Hc.
      replace (Nat.min (i + 1) (length data)) with (i + 1)%nat in Hc by lia.
      destruct (Nat.ltb_spec (i + 1) 1) as [C|_]; [lia|].
      replace (i + 1 - 1)%nat with i in Hc by lia.
      rewrite nth_error_firstn in Hc.
      destruct (Nat.ltb_spec i (i + 1)) as [_|C]; [|lia].
      rewrite nth_error_map, Hb in Hc. cbn in Hc. congruence. }
    subst c. rewrite Ha.
    set (s1 := update_metrics (set_price (Close b) (set_idx (i + 1) s))).
    destruct (apply_rules_keeps up lo hi s1 (consistent_update_metrics _))
      as (K1 & K2 & K3 & _).
    eexists _, _. split; [rewrite surjective_pairing at 1; reflexivity|].
    destruct (auto_trade_enabled s && _); cbn [fst].
    + rewrite K2, K3. repeat split; [exact (proj1 K1) | exact (proj2 K1)].
    + repeat split; cbn; reflexivity.
Qed.

Lemma frame_shows_bar_witness :
  exists s' o,
    animate Samples.scenario_A 2 init = Some (s', o)
    /\ current_idx s' = 3%nat
    /\ current_price s' = Close (Samples.bar 3 10 10.5 9.8 10.2 100)
    /\ consistent s'.
Proof.
  apply (frame_shows_bar Samples.scenario_A 2 init
           (Samples.bar 3 10 10.5 9.8 10.2 100)).
  reflexivity.
Defined.

(** One frame, whatever the data: it does not raise, keeps the settings,
    does not go short, and with auto-trade off does not trade. *)
Lemma animate_keeps (data : list Bar) (i : nat) (s : t) :
  exists s' o,
    animate data i s = Some (s', o)
    /\ deviation s' = deviation s
    /\ auto_trade_enabled s' = auto_trade_enabled s
    /\ ((0 <= position s)%Z -> (0 <= position s')%Z)
    /\ (auto_trade_enabled s = false ->
        o = [] /\ cash s' = cash s /\ position s' = position s).
Proof.
  destruct (animate_cases data i s) as [[_ Ha]|(c & up & lo & hi & _ & Ha)];
    rewrite Ha.
  - eexists _, _. split; [reflexivity|]. cbn. repeat split; auto.
  - set (s1 := update_metrics (set_price c (set_idx (i + 1) s))).
    destruct (apply_rules_keeps up lo hi s1 (consistent_update_metrics _))
      as (_ & _ & _ & K).
    destruct (apply_rules_settings up lo hi s1) as [Kd Ka].
    eexists _, _. split; [rewrite surjective_pairing at 1; reflexivity|].
    destruct (auto_trade_enabled s) eqn:He; cbn [andb].
    + destruct (5 <=? _)%nat; cbn [fst snd].
      * rewrite Kd, Ka. cbn. rewrite He.
        repeat split; try discriminate. exact K.
      * cbn. rewrite He. repeat split; try discriminate. auto.
    + cbn. rewrite He. repeat split; auto.
Qed.

Lemma frames_keeps (data : list Bar) (n : nat) :
  forall (i : nat) (s : t),
  exists s' os,
    frames data i n s = Some (s', os)
    /\ length os = n
    /\ deviation s' = deviation s
    /\ auto_trade_enabled s' = auto_trade_enabled s
    /\ ((0 <= position s)%Z -> (0 <= position s')%Z)
    /\ (auto_trade_enabled s = false ->
        os = repeat [] n /\ cash s' = cash s /\ position s' = position s).
Proof.
  induction n as [|n IH]; intros i s.
  - exists s, []. cbn. repeat split; auto.
  - destruct (animate_keeps data i s) as (s1 & o & Ha & Hd & He & Hp & Hoff).
    destruct (IH (S i) s1) as (s2 & os & Hf & Hl & Hd2 & He2 & Hp2 & Hoff2).
    exists s2, (o :: os). cbn [frames]. rewrite Ha, Hf.
    split; [reflexivity|]. split; [cbn; now rewrite Hl|].
    split; [congruence|]. split; [congruence|]. split; [auto|].
    intros Hfalse. destruct (Hoff Hfalse) as (Eo & Ec & Epos).
    rewrite <- He in Hfalse.
    destruct (Hoff2 Hfalse) as (Eos & Ec2 & Epos2).
    subst o os. cbn [repeat]. repeat split; congruence.
Qed.

(** The replay of the simulator never fails with an [IndexError], for any
    frame and any starting frame: every frame gives its output, and no
    frame changes the deviation or the auto-trade switch. *)
Theorem replay_never_raises (data : list Bar) (i n : nat) (s : t) :
  exists s' os,
    frames data i n s = Some (s', os)
    /\ length os = n
    /\ deviation s' = deviation s
    /\ auto_trade_enabled s' = auto_trade_enabled s.
Proof.
  destruct (frames_keeps data n i s) as (s' & os & H1 & H2 & H3 & H4 & _).
  now exists s', os.
Qed.

(** With auto-trade switched off the replay prints nothing and leaves
    the cash and the position alone, whatever the bars. *)
Theorem auto_off_never_trades (data : list Bar) (i n : nat) (s : t) :
  auto_trade_enabled s = false ->
  exists s',
    frames data i n s = Some (s', repeat [] n)
    /\ cash s' = cash s
    /\ position s' = position s.
Proof.
  intros Hoff.
  destruct (frames_keeps data n i s) as (s' & os & H1 & _ & _ & _ & _ & H).
  destruct (H Hoff) as (E & Hc & Hp). subst os.
  now exists s'.
Qed.

Lemma auto_off_never_trades_witness :
  exists s',
    frames Samples.rising 0 14 (toggle_auto_trade init)
    = Some (s', repeat [] 14)
    /\ cash s' = cash (toggle_auto_trade init)
    /\ position s' = position (toggle_auto_trade init).
Proof.
  apply (auto_off_never_trades Samples.rising 0 14 (toggle_auto_trade init)).
  reflexivity.
Defined.

(** Auto-trading alone never sells short: from a position that is not
    negative, no run of frames ends with a negative one. *)
Theorem auto_trade_never_short (data : list Bar) (i n : nat) (s : t) :
  (0 <= position s)%Z ->
  exists s' os,
    frames data i n s = Some (s', os) /\ (0 <= position s')%Z.
Proof.
  intros Hpos.
  destruct (frames_keeps data n i s) as (s' & os & H1 & _ & _ & _ & H & _).
  exists s', os. split; [exact H1 | now apply H].
Qed.

Lemma auto_trade_never_short_witness :
  exists s' os,
    frames Samples.dipping 0 14 init = Some (s', os)
    /\ (0 <= position s')%Z.
Proof.
  apply (auto_trade_never_short Samples.dipping 0 14 init).
  vm_compute. discriminate.
Defined.

End Simulator.

(** ** The real trader: requests sent to the broker *)

Section Broker.
Import Pandas Vwap Real.

Lemma Real_Qgt_b_true (a b : Q) : Qgt_b a b = true <-> b < a.
Proof.
  unfold Qgt_b. rewrite negb_true_iff.
  split; intros H.
  - apply Qnot_le_lt. intros Hle. apply Qle_bool_iff in Hle. congruence.
  - destruct (Qle_bool a b) eqn:E; [|reflexivity].
    apply Qle_bool_iff in E. exfalso. exact (Qlt_not_le _ _ H E).
Qed.

Lemma Real_Qlt_b_true (a b : Q) : Qlt_b a b = true <-> a < b.
Proof. unfold Qlt_b. apply (Real_Qgt_b_true b a). Qed.

(** [check_auto_trade] of the real trader fails with an [IndexError]
    exactly when auto-trade is on and fewer than four rows are visible;
    in every other case it returns. *)
Theorem real_check_raises_iff (enabled : bool) (reads : nat -> Q)
        (subset : list Row) (upper lower : option Q) :
  check_auto_trade enabled reads subset upper lower = None
  <-> enabled = true /\ (length subset < 4)%nat.
Proof.
  unfold check_auto_trade. destruct enabled; cbn [negb].
  - destruct (Nat.ltb_spec (length subset) 4) as [Hs|Hl].
    + rewrite (iloc_neg_None (col_VWAP subset) 4)
        by (unfold col_VWAP; now rewrite length_map).
      destruct (iloc_neg (col_VWAP subset) 1); split; auto.
    + unfold Row in *.
      destruct (iloc_neg_Some (col_VWAP subset) 1) as [cur Hcur];
        [lia | unfold col_VWAP; rewrite length_map; lia |].
      destruct (iloc_neg_Some (col_VWAP subset) 4) as [past Hpast];
        [lia | unfold col_VWAP; rewrite length_map; lia |].
      destruct (iloc_neg_Some (col_Low subset) 1) as [lo Hlo];
        [lia | unfold col_Low; rewrite length_map; lia |].
      destruct (iloc_neg_Some (col_High subset) 1) as [hi Hhi];
        [lia | unfold col_High; rewrite length_map; lia |].
      rewrite Hcur, Hpast, Hlo, Hhi.
      match goal with
      | |- context [let '(_, _) := ?e in _] => destruct e as [o1 next]
      end.
      split; [discriminate | intros [_ C]; lia].
  - split; [discriminate | intros [C _]; discriminate].
Qed.

Lemma close_position_long (qty : Q) :
  0 < qty -> close_position qty = [PlaceOrder OT_SELL (int qty)].
Proof.
  intros H. unfold close_position.
  now rewrite (proj2 (Real_Qgt_b_true qty 0) H).
Qed.

(** In a downtrend, on a bar that reaches both bands, with a long
    position at the first look, the stop-loss and the take-profit fire
    one after the other.  Each calls [close_position], which sends the
    request for the position that its own look finds; when both looks
    find a long position, two SELL requests go out, each for a whole
    position. *)
Theorem real_stop_and_take_profit_sell_twice (reads : nat -> Q)
        (subset : list Row) (upper lower : option Q) :
  (4 <= length subset)%nat -> 0 < reads 0%nat ->
  Sim.is_uptrend subset = false ->
  Sim.low_touches subset lower = true ->
  Sim.high_touches subset upper = true ->
  check_auto_trade true reads subset upper lower
  = Some (StopLossSignal :: close_position (reads 1%nat)
          ++ TakeProfitSignal :: close_position (reads 2%nat))
  /\ (0 < reads 1%nat -> 0 < reads 2%nat ->
      check_auto_trade true reads subset upper lower
      = Some [ StopLossSignal; PlaceOrder OT_SELL (int (reads 1%nat));
               TakeProfitSignal; PlaceOrder OT_SELL (int (reads 2%nat)) ]).
Proof.
  intros Hlen Hq Hup Hlo Hhi.
  assert (E : check_auto_trade true reads subset upper lower
              = Some (StopLossSignal :: close_position (reads 1%nat)
                      ++ TakeProfitSignal :: close_position (reads 2%nat))).
  { unfold check_auto_trade. cbn [negb].
    unfold Sim.is_uptrend, Sim.low_touches, Sim.high_touches in *.
    change Sim.col_VWAP with col_VWAP in *.
    change Sim.col_Low with col_Low in *.
    change Sim.col_High with col_High in *.
    unfold Row, Sim.Row in *.
    destruct (iloc_neg_Some (col_VWAP subset) 1) as [cur Hcur];
      [lia | unfold col_VWAP; rewrite length_map; lia |].
    destruct (iloc_neg_Some (col_VWAP subset) 4) as [past Hpast];
      [lia | unfold col_VWAP; rewrite length_map; lia |].
    rewrite Hcur, Hpast in *.
    destruct (iloc_neg (col_Low subset) 1) as [lo|]; [|discriminate].
    destruct (iloc_neg (col_High subset) 1) as [hi|]; [|discriminate].
    rewrite Hup, Hlo, Hhi. apply Real_Qgt_b_true in Hq.
    rewrite Hq. cbn [negb andb]. reflexivity. }
  split; [exact E|].
  intros H1 H2. rewrite E.
  now rewrite (close_position_long _ H1), (close_position_long _ H2).
Qed.

Lemma real_stop_and_take_profit_sell_twice_witness :
  check_auto_trade true (fun _ => 3) (frame Samples.falling)
                   Samples.falling_upper Samples.falling_lower
  = Some (StopLossSignal :: close_position 3
          ++ TakeProfitSignal :: close_position 3)
  /\ (0 < 3 -> 0 < 3 ->
      check_auto_trade true (fun _ => 3) (frame Samples.falling)
                       Samples.falling_upper Samples.falling_lower
      = Some [ StopLossSignal; PlaceOrder OT_SELL (int 3);
               TakeProfitSignal; PlaceOrder OT_SELL (int 3) ]).
Proof.
  apply (real_stop_and_take_profit_sell_twice (fun _ => 3)
           (frame Samples.falling) Samples.falling_upper
           Samples.falling_lower).
  - vm_compute. repeat constructor.
  - reflexivity.
  - vm_compute. reflexivity.
  - vm_compute. reflexivity.
  - vm_compute. reflexivity.
Defined.

(** Closing a short position sends two requests: [place_real_order]
    turns every side other than BUY into a SELL, so the first request
    sells the shares once more, and only the second buys to cover. *)
Theorem real_close_short_sells_first (qty : Q) :
  qty < 0 ->
  close_position qty
  = [ PlaceOrder OT_SELL (int (Qabs qty));
      PlaceOrder OT_BUY_TO_COVER (int (Qabs qty)) ].
Proof.
  intros H. unfold close_position.
  assert (H1 : Qgt_b qty 0 = false).
  { destruct (Qgt_b qty 0) eqn:E; [|reflexivity].
    apply Real_Qgt_b_true in E. exfalso.
    exact (Qlt_irrefl _ (Qlt_trans _ _ _ H E)). }
  apply Real_Qlt_b_true in H. rewrite H1, H. reflexivity.
Qed.

Lemma real_close_short_sells_first_witness :
  close_position (-5)
  = [ PlaceOrder OT_SELL (int (Qabs (-5)));
      PlaceOrder OT_BUY_TO_COVER (int (Qabs (-5))) ].
Proof.
  apply (real_close_short_sells_first (-5)). reflexivity.
Defined.

(** Closing a long position sends one SELL for the whole shares held:
    the quantity is the position rounded down, so it never exceeds what
    is held and a position under one share gives a request for 0. *)
Theorem real_close_long_rounds_down (qty : Q) :
  0 < qty ->
  close_position qty = [PlaceOrder OT_SELL (int qty)]
  /\ inject_Z (int qty) <= qty
  /\ qty < inject_Z (int qty) + 1
  /\ (qty < 1 -> int qty = 0%Z).
Proof.
  intros H. unfold close_position.
  pose proof (proj2 (Real_Qgt_b_true qty 0) H) as Hg. rewrite Hg.
  assert (Hint : int qty = Qfloor qty).
  { unfold int.
    assert (E : Qle_bool 0 qty = true)
      by (apply Qle_bool_iff; now apply Qlt_le_weak).
    now rewrite E. }
  rewrite Hint. split; [reflexivity|].
  split; [apply Qfloor_le|]. split.
  - change (inject_Z (Qfloor qty) + 1)
      with (inject_Z (Qfloor qty) + inject_Z 1).
    rewrite <- inject_Z_plus. apply Qlt_floor.
  - intros H1.
    assert (L : (0 <= Qfloor qty)%Z).
    { change 0%Z with (Qfloor 0). apply Qfloor_resp_le.
      now apply Qlt_le_weak. }
    assert (U : (Qfloor qty < 1)%Z).
    { rewrite Zlt_Qlt. apply (Qle_lt_trans _ qty); [apply Qfloor_le|].
      exact H1. }
    lia.
Qed.

Lemma real_close_long_rounds_down_witness :
  close_position (1 # 2) = [PlaceOrder OT_SELL (int (1 # 2))]
  /\ inject_Z (int (1 # 2)) <= 1 # 2
  /\ 1 # 2 < inject_Z (int (1 # 2)) + 1
  /\ (1 # 2 < 1 -> int (1 # 2) = 0%Z).
Proof.
  apply (real_close_long_rounds_down (1 # 2)). reflexivity.
Defined.

End Broker.

(** ** Signals per tick, in the simulator and in the real trader *)

Section SignalsPerTick.
Import Pandas Vwap.

Lemma real_signals_close (qty : Q) :
  Real.signals (Real.close_position qty) = [].
Proof.
  unfold Real.close_position, Real.place_real_order.
  destruct (Real.Qgt_b qty 0); [reflexivity|].
  destruct (Real.Qlt_b qty 0); reflexivity.
Qed.

Lemma real_signals_app (a b : list Real.effect) :
  Real.signals (a ++ b) = Real.signals a ++ Real.signals b.
Proof. apply filter_app. Qed.

(** The rules of the real trader, once the lookups have succeeded. *)
Lemma real_check_long (reads : nat -> Q) (subset : list Real.Row)
      (upper lower : option Q) :
  (4 <= length subset)%nat ->
  Real.check_auto_trade true reads subset upper lower
  = Some
      ((if Sim.is_uptrend subset && Sim.low_touches subset lower then
          Real.BuySignal :: Real.place_real_order Real.BUY 1
        else if negb (Sim.is_uptrend subset) && Sim.low_touches subset lower
                && Real.Qgt_b (reads 0%nat) 0 then
          Real.StopLossSignal :: Real.close_position (reads 1%nat)
        else [])
       ++ (if Real.Qgt_b (reads 0%nat) 0 && Sim.high_touches subset upper
           then
             Real.TakeProfitSignal
             :: Real.close_position
                  (reads (if Sim.is_uptrend subset
                             && Sim.low_touches subset lower
                          then 1%nat
                          else if negb (Sim.is_uptrend subset)
                                  && Sim.low_touches subset lower
                                  && Real.Qgt_b (reads 0%nat) 0
                               then 2%nat else 1%nat))
           else [])).
Proof.
  intros Hlen. unfold Real.check_auto_trade. cbn [negb].
  unfold Sim.is_uptrend, Sim.low_touches, Sim.high_touches.
  change Sim.col_VWAP with Real.col_VWAP.
  change Sim.col_Low with Real.col_Low.
  change Sim.col_High with Real.col_High.
  unfold Real.Row in *.
  destruct (iloc_neg_Some (Real.col_VWAP subset) 1) as [cur Hcur];
    [lia | unfold Real.col_VWAP; rewrite length_map; lia |].
  destruct (iloc_neg_Some (Real.col_VWAP subset) 4) as [past Hpast];
    [lia | unfold Real.col_VWAP; rewrite length_map; lia |].
  destruct (iloc_neg_Some (Real.col_Low subset) 1) as [lo Hlo];
    [lia | unfold Real.col_Low; rewrite length_map; lia |].
  destruct (iloc_neg_Some (Real.col_High subset) 1) as [hi Hhi];
    [lia | unfold Real.col_High; rewrite length_map; lia |].
  rewrite Hcur, Hpast, Hlo, Hhi.
  destruct (gt_nan cur past && le_nan lo lower); [reflexivity|].
  destruct (negb (gt_nan cur past) && le_nan lo lower
            && Real.Qgt_b (reads 0%nat) 0); reflexivity.
Qed.

(** C5, amended.  A tick gives at most two signals, and a CLOSE does not
    replace a BUY of the same tick.  In the simulator the signals of a
    tick are: none, a BUY, a CLOSE, or a BUY followed by a CLOSE; when
    rule 1 fires and the take-profit test holds on the position and the
    profit that the buy leaves, the BUY is carried out first and the
    CLOSE then sells everything, the share just bought included.  In
    the real trader the signals of a tick are: none, a BUY, a stop-loss,
    a take-profit, a BUY followed by a take-profit, or a stop-loss
    followed by a take-profit; when the BUY condition and the
    take-profit condition hold together, the BUY request for one share
    goes out first and [close_position] then sends the request for the
    position it finds at its own look. *)
Theorem signals_per_frame (subset : list Sim.Row) (u l : option Q)
        (s : Sim.t) (enabled : bool) (reads : nat -> Q) :
  (exists s' o,
     Sim.check_auto_trade subset u l s = Some (s', o)
     /\ (Sim.signals o = [] \/ Sim.signals o = [Sim.BUY]
         \/ Sim.signals o = [Sim.CLOSE]
         \/ Sim.signals o = [Sim.BUY; Sim.CLOSE])
     /\ (Sim.auto_trade_enabled s = true -> (5 <= length subset)%nat ->
         Sim.is_uptrend subset = true -> Sim.low_touches subset l = true ->
         Sim.high_touches subset u = true ->
         (0 <= Sim.position s)%Z -> 0 < Sim.pl (fst (Sim.buy s)) ->
         o = [ Sim.AutoUptrendDipBuy;
               Sim.BOUGHT Sim.TRADE_QTY (Sim.current_price s);
               Sim.AutoUpperBandProfit;
               Sim.CLOSED (Sim.position s + Sim.TRADE_QTY)
                          (Sim.current_price s) ]
         /\ Sim.signals o = [Sim.BUY; Sim.CLOSE]
         /\ Sim.position s' = 0%Z))
  /\ match Real.check_auto_trade enabled reads subset u l with
     | None => enabled = true /\ (length subset < 4)%nat
     | Some o =>
         Real.signals o = []
         \/ Real.signals o = [Real.BuySignal]
         \/ Real.signals o = [Real.StopLossSignal]
         \/ Real.signals o = [Real.TakeProfitSignal]
         \/ Real.signals o = [Real.BuySignal; Real.TakeProfitSignal]
         \/ Real.signals o = [Real.StopLossSignal; Real.TakeProfitSignal]
     end
  /\ ((4 <= length subset)%nat ->
      Sim.is_uptrend subset = true -> Sim.low_touches subset l = true ->
      Sim.high_touches subset u = true -> 0 < reads 0%nat ->
      Real.check_auto_trade true reads subset u l
      = Some (Real.BuySignal :: Real.PlaceOrder Real.OT_BUY 1
              :: Real.TakeProfitSignal
              :: Real.close_position (reads 1%nat))).
Proof.
  split; [|split].
  - rewrite check_auto_trade_total.
    eexists _, _. split; [rewrite surjective_pairing at 1; reflexivity|].
    split.
    + destruct (Sim.auto_trade_enabled s && (5 <=? length subset)%nat).
      * apply apply_rules_signals.
      * left. reflexivity.
    + intros He Hlen Hup Hlo Hhi Hpos Hpl.
      rewrite He, Hup, Hlo, Hhi.
      destruct (Nat.leb_spec 5 (length subset)) as [_|C]; [|lia].
      cbn [andb].
      unfold Sim.apply_rules, Sim.seq, Sim.print. cbn [andb].
      destruct (Sim.buy s) as [s1 o1] eqn:Eb.
      cbn [fst] in Hpl.
      assert (Hs1 : s1 = fst (Sim.buy s)) by now rewrite Eb.
      assert (Ho1 : o1 = [Sim.BOUGHT Sim.TRADE_QTY (Sim.current_price s)])
        by (unfold Sim.buy in Eb; now inversion Eb).
      assert (Hp1 : Sim.position s1 = (Sim.position s + Sim.TRADE_QTY)%Z)
        by (rewrite Hs1; reflexivity).
      assert (Hc1 : Sim.current_price s1 = Sim.current_price s)
        by (rewrite Hs1; reflexivity).
      assert (Hg : Sim.Qgt_b (Sim.pl s1) 0 = true)
        by (apply Sim_Qgt_b_true; exact Hpl).
      unfold Sim.TRADE_QTY in Hp1.
      destruct (Z.ltb_spec 0 (Sim.position s1)) as [_|C]; [|lia].
      cbn [andb]. rewrite Hg. unfold Sim.close_position.
      destruct (Z.eqb_spec (Sim.position s1) 0) as [C|_]; [lia|].
      cbn [fst snd app Sim.update_metrics Sim.position].
      rewrite Hp1, Hc1, Ho1. unfold Sim.TRADE_QTY.
      repeat split.
  - destruct enabled; [|left; reflexivity].
    destruct (Nat.ltb_spec (length subset) 4) as [Hs|Hl].
    + assert (E : Real.check_auto_trade true reads subset u l = None).
      { unfold Real.check_auto_trade. cbn [negb].
        rewrite (iloc_neg_None (Real.col_VWAP subset) 4)
          by (unfold Real.col_VWAP; now rewrite length_map).
        now destruct (iloc_neg (Real.col_VWAP subset) 1). }
      rewrite E. now split.
    + rewrite real_check_long by exact Hl.
      destruct (Sim.is_uptrend subset && Sim.low_touches subset l);
        [|destruct (negb (Sim.is_uptrend subset) && Sim.low_touches subset l
                    && Real.Qgt_b (reads 0%nat) 0)];
        destruct (Real.Qgt_b (reads 0%nat) 0 && Sim.high_touches subset u);
        rewrite real_signals_app; cbn [Real.signals filter Real.is_signal
          Real.is_order negb Real.place_real_order app];
        fold (Real.signals (Real.close_position (reads 1%nat)));
        fold (Real.signals (Real.close_position (reads 2%nat)));
        rewrite ?real_signals_close; cbn [app]; tauto.
  - intros Hlen Hup Hlo Hhi Hq.
    rewrite real_check_long by exact Hlen.
    rewrite Hup, Hlo, Hhi.
    rewrite (proj2 (Real_Qgt_b_true (reads 0%nat) 0) Hq).
    reflexivity.
Qed.

Lemma signals_per_frame_witness :
  (exists s' o,
     Sim.check_auto_trade Samples.subset6 Samples.upper6 Samples.lower6
                          Samples.state6 = Some (s', o)
     /\ Sim.signals o = [Sim.BUY; Sim.CLOSE]
     /\ Sim.position s' = 0%Z)
  /\ Real.check_auto_trade true (fun _ => 3) Samples.subset6 Samples.upper6
                           Samples.lower6
     = Some (Real.BuySignal :: Real.PlaceOrder Real.OT_BUY 1
             :: Real.TakeProfitSignal :: Real.close_position 3).
Proof.
  destruct (signals_per_frame Samples.subset6 Samples.upper6 Samples.lower6
              Samples.state6 true (fun _ => 3))
    as ((s' & o & Hrun & _ & Hboth) & _ & Hreal).
  split.
  - exists s', o. split; [exact Hrun|].
    destruct Hboth as (_ & Hsig & Hpos).
    + reflexivity.
    + vm_compute. repeat constructor.
    + vm_compute. reflexivity.
    + vm_compute. reflexivity.
    + vm_compute. reflexivity.
    + vm_compute. discriminate.
    + vm_compute. reflexivity.
    + split; assumption.
  - apply Hreal.
    + vm_compute. repeat constructor.
    + vm_compute. reflexivity.
    + vm_compute. reflexivity.
    + vm_compute. reflexivity.
    + reflexivity.
Defined.

End SignalsPerTick.

(** ** The search of the account monitor *)

Section MonitorSearch.
Import Monitor.
Variable hit : String.string -> bool.

Lemma json_induction (P : json -> Prop) :
  P JNone -> (forall b, P (JBool b)) -> (forall x, P (JNum x)) ->
  (forall s, P (JStr s)) ->
  (forall items, Forall P items -> P (JList items)) ->
  (forall fields, Forall (fun kv => P (snd kv)) fields -> P (JDict fields)) ->
  forall j, P j.
Proof.
  intros H0 Hb Hn Hs Hl Hd.
  fix IH 1. intros [ | b | x | s | items | fields].
  - exact H0.
  - apply Hb.
  - apply Hn.
  - apply Hs.
  - apply Hl. revert items. fix IHl 1. intros [|i r].
    + constructor.
    + constructor; [apply IH | apply IHl].
  - apply Hd. revert fields. fix IHf 1. intros [|[k v] r].
    + constructor.
    + constructor; [apply IH | apply IHf].
Qed.

(** The search, one field or one item at a time. *)
Lemma find_key_dict_cons (k : String.string) (v : json)
      (rest : list (String.string * json)) :
  find_key hit (JDict ((k, v) :: rest))
  = if hit k then v
    else if is_container v && truthy (find_key hit v) then find_key hit v
    else find_key hit (JDict rest).
Proof.
  destruct v; cbn [find_key is_container andb]; try reflexivity.
Qed.

Lemma find_key_list_cons (item : json) (rest : list json) :
  find_key hit (JList (item :: rest))
  = if truthy (find_key hit item) then find_key hit item
    else find_key hit (JList rest).
Proof. reflexivity. Qed.

Lemma stored_dict_cons (kv : String.string * json)
      (rest : list (String.string * json)) (v : json) :
  stored hit (JDict rest) v -> stored hit (JDict (kv :: rest)) v.
Proof.
  intros H. inversion H; subst.
  - eapply stored_here; [right; eassumption | assumption].
  - eapply stored_field; [right; eassumption | assumption].
Qed.

Lemma stored_list_cons (i : json) (rest : list json) (v : json) :
  stored hit (JList rest) v -> stored hit (JList (i :: rest)) v.
Proof.
  intros H. inversion H; subst.
  eapply stored_item; [right; eassumption | assumption].
Qed.

Lemma truthy_not_None (v : json) : truthy v = true -> v <> JNone.
Proof. intros H E. subst v. discriminate. Qed.

(** What the search returns, when it returns something, is the value of
    a key that passes the test. *)
Lemma find_key_sound (data : json) :
  find_key hit data <> JNone -> stored hit data (find_key hit data).
Proof.
  induction data using json_induction; try (intros C; now elim C).
  - induction H as [|i r Hi _ IH]; [intros C; now elim C|].
    rewrite find_key_list_cons.
    destruct (truthy (find_key hit i)) eqn:T; intros Hne.
    + eapply stored_item; [left; reflexivity|].
      apply Hi. now apply truthy_not_None.
    + apply stored_list_cons. now apply IH.
  - induction H as [|[k v] r Hv _ IH]; [intros C; now elim C|].
    rewrite find_key_dict_cons. cbn [snd] in Hv.
    destruct (hit k) eqn:Hk; intros Hne.
    + eapply stored_here; [left; reflexivity | exact Hk].
    + destruct (is_container v && truthy (find_key hit v)) eqn:T.
      * apply andb_true_iff in T. destruct T as [_ T].
        eapply stored_field; [left; reflexivity|].
        apply Hv. now apply truthy_not_None.
      * apply stored_dict_cons. now apply IH.
Qed.

(** The balance that [find_key(balances, target) or 0.0] gives is either
    the value of some key of the response that passes the test, or 0.0;
    when no key at any depth passes the test it is 0.0. *)
Theorem find_or_zero_is_stored_or_zero (balances : json) :
  (find_or_zero hit balances = JNum 0
   \/ (stored hit balances (find_or_zero hit balances)
       /\ truthy (find_or_zero hit balances) = true))
  /\ ((forall v, ~ stored hit balances v) ->
      find_or_zero hit balances = JNum 0).
Proof.
  unfold find_or_zero.
  destruct (truthy (find_key hit balances)) eqn:T.
  - pose proof (find_key_sound balances (truthy_not_None _ T)) as Hs.
    split; [right; now split|].
    intros Hno. elim (Hno _ Hs).
  - split; [left|]; reflexivity.
Qed.

(** A key that passes the test at the top of a dictionary gives its value
    whatever that is, but the same key one level down is passed over when
    its value is falsy (a balance of 0, an empty string, [None]): the
    search then goes on with the fields that follow. *)
Theorem find_key_skips_nested_falsy (k1 k : String.string) (v : json)
        (rest : list (String.string * json)) :
  hit k = true -> hit k1 = false -> truthy v = false ->
  find_key hit (JDict ((k, v) :: rest)) = v
  /\ find_key hit (JDict ((k1, JDict [(k, v)]) :: rest))
     = find_key hit (JDict rest).
Proof.
  intros Hk Hk1 Hv. split.
  - rewrite find_key_dict_cons. now rewrite Hk.
  - rewrite find_key_dict_cons, Hk1. cbn [is_container andb].
    rewrite (find_key_dict_cons k v []), Hk, Hv. reflexivity.
Qed.

End MonitorSearch.

Section MonitorSearchSample.
Import String.

Lemma find_key_skips_nested_falsy_witness :
  Monitor.find_key (String.eqb "cash"%string)
    (Monitor.JDict [("cash"%string, Monitor.JNum 0);
                    ("pending"%string, Monitor.JNum 12)])
  = Monitor.JNum 0
  /\ Monitor.find_key (String.eqb "cash"%string)
       (Monitor.JDict
          [("account"%string,
            Monitor.JDict [("cash"%string, Monitor.JNum 0)]);
           ("pending"%string, Monitor.JNum 12)])
     = Monitor.find_key (String.eqb "cash"%string)
         (Monitor.JDict [("pending"%string, Monitor.JNum 12)]).
Proof.
  apply (find_key_skips_nested_falsy (String.eqb "cash"%string) "account"%string
           "cash"%string
           (Monitor.JNum 0) [("pending"%string, Monitor.JNum 12)]).
  - reflexivity.
  - reflexivity.
  - reflexivity.
Defined.

End MonitorSearchSample.

(** ** Reading the credentials file *)

Section CredentialsFile.
Import Credentials.

Lemma str_eqb_refl (k : str) : str_eqb k k = true.
Proof. unfold str_eqb. destruct (list_eq_dec N.eq_dec k k); congruence. Qed.

Lemma str_eqb_eq (a b : str) : str_eqb a b = true -> a = b.
Proof.
  unfold str_eqb. destruct (list_eq_dec N.eq_dec a b); [auto|discriminate].
Qed.

Lemma dict_get_set (k v : str) (d : dict) :
  dict_get k (dict_set k v d) = Some v.
Proof.
  induction d as [|[k' v'] r IH]; cbn.
  - now rewrite str_eqb_refl.
  - destruct (str_eqb k' k) eqn:E; cbn; rewrite E; [reflexivity | exact IH].
Qed.

Lemma lstrip_blank_app (w x : str) : blank w -> lstrip (w ++ x) = lstrip x.
Proof.
  unfold blank. induction w as [|c w IH]; cbn; [reflexivity|].
  intros H. apply andb_true_iff in H. destruct H as [Hc Hw].
  rewrite Hc. now apply IH.
Qed.

Lemma lstrip_blank (w : str) : blank w -> lstrip w = [].
Proof.
  intros H. rewrite <- (app_nil_r w). now rewrite lstrip_blank_app.
Qed.

Lemma blank_rev (w : str) : blank w -> blank (rev w).
Proof.
  unfold blank. rewrite !forallb_forall. intros H c Hc.
  apply H. now apply in_rev.
Qed.

Lemma rstrip_app_blank (x w : str) : blank w -> rstrip (x ++ w) = rstrip x.
Proof.
  intros H. unfold rstrip. rewrite rev_app_distr.
  now rewrite lstrip_blank_app by now apply blank_rev.
Qed.

Lemma lstrip_head (c : N) (t : str) :
  is_space c = false -> lstrip (c :: t) = c :: t.
Proof. intros H. cbn. now rewrite H. Qed.

Lemma rstrip_last (x : str) (c : N) :
  is_space c = false -> rstrip (x ++ [c]) = x ++ [c].
Proof.
  intros H. unfold rstrip. rewrite rev_app_distr. cbn [rev app].
  rewrite lstrip_head by exact H.
  cbn [rev]. now rewrite rev_involutive.
Qed.

Lemma trimmed_lstrip_app (s x : str) :
  s <> [] -> trimmed s -> lstrip (s ++ x) = s ++ x.
Proof.
  intros Hne [Hh _]. destruct s as [|c t]; [congruence|].
  cbn [app]. apply lstrip_head. now apply (Hh c t).
Qed.

Lemma trimmed_rstrip_app (x s : str) :
  s <> [] -> trimmed s -> rstrip (x ++ s) = x ++ s.
Proof.
  intros Hne [_ Hl].
  destruct (exists_last Hne) as (t & c & E). subst s.
  rewrite app_assoc. apply rstrip_last.
  apply (Hl c (rev t)). rewrite rev_app_distr. reflexivity.
Qed.

(** Stripping a trimmed string between two blanks gives the string. *)
Lemma strip_padded (w s w' : str) :
  blank w -> blank w' -> trimmed s -> strip (w ++ s ++ w') = s.
Proof.
  intros Hw Hw' Hs. unfold strip. rewrite lstrip_blank_app by exact Hw.
  destruct s as [|c t].
  - cbn [app]. now rewrite lstrip_blank.
  - rewrite trimmed_lstrip_app by (try discriminate; exact Hs).
    rewrite rstrip_app_blank by exact Hw'.
    rewrite <- (app_nil_l (c :: t)).
    now rewrite trimmed_rstrip_app by (try discriminate; exact Hs).
Qed.

Lemma has_eq_app (a b : str) : has_eq (a ++ b) = has_eq a || has_eq b.
Proof. unfold has_eq. apply existsb_app. Qed.

Lemma blank_no_eq (w : str) : blank w -> has_eq w = false.
Proof.
  unfold blank, has_eq.
  induction w as [|c w IH]; cbn [forallb existsb]; [reflexivity|].
  intros H. apply andb_true_iff in H. destruct H as [Hc Hw].
  rewrite (IH Hw), orb_false_r.
  destruct (N.eqb_spec eq_sign c) as [E|_]; [|reflexivity].
  subst c. discriminate.
Qed.

Lemma split_eq_first (a r : str) :
  has_eq a = false -> split_eq (a ++ eq_sign :: r) = (a, r).
Proof.
  unfold has_eq.
  induction a as [|c a IH]; cbn [existsb app split_eq].
  - intros _. now rewrite N.eqb_refl.
  - intros H. apply orb_false_iff in H. destruct H as [Hc Ha].
    rewrite N.eqb_sym, Hc. now rewrite (IH Ha).
Qed.

(** A padded line [key = value], once stripped. *)
Lemma strip_assignment (w1 k w2 w3 v w4 : str) :
  blank w1 -> blank w2 -> blank w3 -> blank w4 ->
  trimmed k -> trimmed v ->
  exists a b,
    blank a /\ blank b
    /\ strip (w1 ++ k ++ w2 ++ eq_sign :: w3 ++ v ++ w4)
       = (k ++ a) ++ eq_sign :: b ++ v.
Proof.
  intros H1 H2 H3 H4 Hk Hv. unfold strip.
  rewrite lstrip_blank_app by exact H1.
  assert (Hl : exists a, blank a
             /\ lstrip (k ++ w2 ++ eq_sign :: w3 ++ v ++ w4)
                = (k ++ a) ++ eq_sign :: w3 ++ v ++ w4).
  { destruct k as [|c t].
    - exists []. split; [reflexivity|]. cbn [app].
      rewrite lstrip_blank_app by exact H2. now apply lstrip_head.
    - exists w2. split; [exact H2|].
      rewrite trimmed_lstrip_app by (try discriminate; exact Hk).
      now rewrite <- app_assoc. }
  destruct Hl as (a & Ha & El). rewrite El. exists a.
  destruct v as [|c t].
  - exists []. split; [exact Ha|]. split; [reflexivity|].
    cbn [app].
    replace ((k ++ a) ++ eq_sign :: w3 ++ w4)
      with ((((k ++ a) ++ [eq_sign]) ++ w3) ++ w4)
      by (rewrite <- !app_assoc; reflexivity).
    rewrite rstrip_app_blank by exact H4.
    rewrite rstrip_app_blank by exact H3.
    now apply rstrip_last.
  - exists w3. split; [exact Ha|]. split; [exact H3|].
    replace ((k ++ a) ++ eq_sign :: w3 ++ (c :: t) ++ w4)
      with (((((k ++ a) ++ [eq_sign]) ++ w3) ++ (c :: t)) ++ w4)
      by (rewrite <- !app_assoc; reflexivity).
    rewrite rstrip_app_blank by exact H4.
    rewrite trimmed_rstrip_app by (try discriminate; exact Hv).
    rewrite <- !app_assoc. reflexivity.
Qed.

Lemma read_line_ignores (creds : dict) (line : str) :
  has_eq line = false -> read_line creds line = creds.
Proof. intros H. unfold read_line. now rewrite H. Qed.

Lemma fold_ignored (later : list str) :
  Forall (fun l => has_eq l = false) later ->
  forall creds, fold_left read_line later creds = creds.
Proof.
  induction 1 as [|l later Hl _ IH]; intros creds; [reflexivity|].
  cbn [fold_left]. rewrite read_line_ignores by exact Hl. apply IH.
Qed.

(** A line [key = value], with or without blanks around the key and the
    value, sets the key to the value: it replaces what earlier lines
    gave, the value may itself contain "=", and lines without "=" that
    follow change nothing. *)
Theorem credentials_line_sets_key (earlier later : list str)
        (w1 k w2 w3 v w4 : str) :
  blank w1 -> blank w2 -> blank w3 -> blank w4 ->
  trimmed k -> trimmed v -> has_eq k = false ->
  Forall (fun l => has_eq l = false) later ->
  exists creds,
    load_credentials
      (Some (earlier ++ (w1 ++ k ++ w2 ++ eq_sign :: w3 ++ v ++ w4) :: later))
    = Some creds
    /\ dict_get k creds = Some v.
Proof.
  intros H1 H2 H3 H4 Hk Hv Hke Hlater.
  eexists. split; [reflexivity|].
  rewrite fold_left_app. cbn [fold_left].
  rewrite (fold_ignored later Hlater).
  unfold read_line.
  assert (He : has_eq (w1 ++ k ++ w2 ++ eq_sign :: w3 ++ v ++ w4) = true).
  { rewrite !has_eq_app. cbn [has_eq existsb].
    rewrite N.eqb_refl. cbn. now rewrite !orb_true_r. }
  rewrite He.
  destruct (strip_assignment w1 k w2 w3 v w4 H1 H2 H3 H4 Hk Hv)
    as (a & b & Ha & Hb & Es).
  rewrite Es, split_eq_first
    by (rewrite has_eq_app, Hke, (blank_no_eq a Ha); reflexivity).
  assert (Ek : strip (k ++ a) = k)
    by exact (strip_padded [] k a eq_refl Ha Hk).
  assert (Ev : strip (b ++ v) = v).
  { replace (b ++ v) with (b ++ v ++ []) by now rewrite app_nil_r.
    exact (strip_padded b v [] Hb eq_refl Hv). }
  rewrite Ek, Ev. apply dict_get_set.
Qed.

Lemma credentials_line_sets_key_witness :
  exists creds,
    load_credentials
      (Some ([Samples.line_old]
             ++ ([] ++ Samples.key_USERNAME ++ [32%N]
                 ++ eq_sign :: [32%N] ++ Samples.value_bob ++ [10%N])
                :: [Samples.line_note]))
    = Some creds
    /\ dict_get Samples.key_USERNAME creds = Some Samples.value_bob.
Proof.
  apply (credentials_line_sets_key [Samples.line_old] [Samples.line_note]
           [] Samples.key_USERNAME [32%N] [32%N] Samples.value_bob [10%N]).
  - reflexivity.
  - reflexivity.
  - reflexivity.
  - reflexivity.
  - split; intros c t E; inversion E; reflexivity.
  - split; intros c t E; inversion E; reflexivity.
  - reflexivity.
  - repeat constructor.
Defined.

Lemma has_eq_lstrip (s : str) : has_eq (lstrip s) = has_eq s.
Proof.
  induction s as [|c t IH]; [reflexivity|]. cbn [lstrip].
  destruct (is_space c) eqn:E; [|reflexivity].
  rewrite IH. cbn [has_eq existsb].
  destruct (N.eqb_spec eq_sign c) as [C|_]; [|reflexivity].
  subst c. discriminate.
Qed.

Lemma has_eq_rev (s : str) : has_eq (rev s) = has_eq s.
Proof.
  unfold has_eq. induction s as [|c t IH]; [reflexivity|].
  cbn [rev]. rewrite existsb_app, IH. cbn [existsb].
  rewrite orb_false_r. apply orb_comm.
Qed.

Lemma has_eq_strip (s : str) : has_eq (strip s) = has_eq s.
Proof.
  unfold strip, rstrip.
  now rewrite has_eq_rev, has_eq_lstrip, has_eq_rev, has_eq_lstrip.
Qed.

(** The two copies of [load_credentials] read every file alike: looking
    for "=" before or after stripping the line makes no difference. *)
Theorem load_credentials_copies_agree (file : option (list str)) :
  load_credentials_monitor file = load_credentials file.
Proof.
  destruct file as [lines|]; [|reflexivity].
  unfold load_credentials_monitor, load_credentials. f_equal.
  generalize (@nil (str * str)).
  induction lines as [|l lines IH]; intros d; [reflexivity|].
  cbn [fold_left]. rewrite IH. f_equal.
  unfold read_line_monitor, read_line. now rewrite has_eq_strip.
Qed.

End CredentialsFile.

(** ** The bars of the last trading day *)

Section LastDay.
Import Vwap DayData.
Variable date : Z -> Z.

(** The second [ValueError] of the start-up can never be raised: the
    last row always passes the filter.  The start-up fails only on an
    empty download; otherwise it keeps a non-empty frame whose rows all
    have the date of the last downloaded row and which ends with that
    row. *)
Theorem last_day_is_never_empty (data : list Bar) :
  match select_last_day date data with
  | NoDataReturned => data = []
  | NoDataForLastDay => False
  | Selected day_data =>
      exists last_row,
        Pandas.iloc_neg data 1 = Some last_row
        /\ Pandas.iloc_neg day_data 1 = Some last_row
        /\ Forall (fun b => date (Datetime b) = date (Datetime last_row))
                  day_data
  end.
Proof.
  unfold select_last_day.
  destruct data as [|b0 rest] eqn:E; [reflexivity|].
  rewrite <- E.
  destruct (exists_last (l := data)) as (l & last_row & El);
    [rewrite E; discriminate|].
  rewrite El, iloc_neg_last, filter_app. cbn [filter].
  rewrite Z.eqb_refl.
  destruct (filter _ l ++ [last_row]) as [|x xs] eqn:F;
    [now destruct (filter _ l)|].
  rewrite <- F. exists last_row.
  split; [reflexivity|]. split; [apply iloc_neg_last|].
  apply Forall_app. split.
  - apply Forall_forall. intros b Hb. apply filter_In in Hb.
    now apply Z.eqb_eq.
  - constructor; [reflexivity | constructor].
Qed.

End LastDay.

(** ** The colour of a replayed row *)

Section RowColour.
Import ReplayOnds.

Lemma Qle_bool_false (a b : Q) : Qle_bool a b = false <-> b < a.
Proof.
  split; intros H.
  - apply Qnot_le_lt. intros C. apply Qle_bool_iff in C. congruence.
  - destruct (Qle_bool a b) eqn:E; [|reflexivity].
    apply Qle_bool_iff in E. exfalso. exact (Qlt_not_le _ _ H E).
Qed.

Lemma Qeq_bool_false (a b : Q) : ~ a == b -> Qeq_bool a b = false.
Proof.
  intros H. destruct (Qeq_bool a b) eqn:E; [|reflexivity].
  apply Qeq_bool_iff in E. contradiction.
Qed.

(** With a positive open the row is green exactly when the close is not
    under the open; with a negative open the colours are the other way
    round; with an open of 0 nothing is raised and the row is green
    exactly when the close is positive. *)
Theorem row_colour (open_p close_p : Q) :
  (0 < open_p -> (is_green open_p close_p = true <-> open_p <= close_p))
  /\ (open_p < 0 -> (is_green open_p close_p = true <-> close_p <= open_p))
  /\ (open_p == 0 -> (is_green open_p close_p = true <-> 0 < close_p)).
Proof.
  unfold is_green, change_pct, divide. split; [|split]; intros Ho.
  - rewrite Qeq_bool_false by (intros C; rewrite C in Ho;
                               exact (Qlt_irrefl _ Ho)).
    cbn [times_100 ge_0]. rewrite Qle_bool_iff.
    assert (Hk : 0 < / open_p * 100).
    { apply Qmult_lt_0_compat; [now apply Qinv_lt_0_compat | reflexivity]. }
    setoid_replace ((close_p - open_p) / open_p * 100)
      with ((close_p - open_p) * (/ open_p * 100))
      by (unfold Qdiv; ring).
    setoid_replace 0 with (0 * (/ open_p * 100)) at 1 by ring.
    rewrite (Qmult_le_r _ _ _ Hk). split; intros H; lra.
  - rewrite Qeq_bool_false by (intros C; rewrite C in Ho;
                               exact (Qlt_irrefl _ Ho)).
    cbn [times_100 ge_0]. rewrite Qle_bool_iff.
    assert (Hk : 0 < / (- open_p) * 100).
    { apply Qmult_lt_0_compat; [apply Qinv_lt_0_compat; lra | reflexivity]. }
    setoid_replace ((close_p - open_p) / open_p * 100)
      with ((open_p - close_p) * (/ (- open_p) * 100))
      by (field; intros C; rewrite C in Ho; exact (Qlt_irrefl _ Ho)).
    setoid_replace 0 with (0 * (/ (- open_p) * 100)) at 1 by ring.
    rewrite (Qmult_le_r _ _ _ Hk). split; intros H; lra.
  - assert (E : Qeq_bool open_p 0 = true) by now apply Qeq_bool_iff.
    rewrite E.
    destruct (Qeq_bool (close_p - open_p) 0) eqn:Ez.
    + apply Qeq_bool_iff in Ez. cbn. split; [discriminate|].
      intros H. lra.
    + destruct (Qle_bool 0 (close_p - open_p)) eqn:El; cbn.
      * apply Qle_bool_iff in El. split; [intros _|reflexivity].
        destruct (Qlt_le_dec 0 close_p) as [H|H]; [exact H|].
        exfalso. assert (C : close_p - open_p == 0) by lra.
        apply Qeq_bool_iff in C. congruence.
      * apply Qle_bool_false in El. split; [discriminate|].
        intros H. lra.
Qed.

Lemma row_colour_witness :
  is_green 10 (51 # 5) = true /\ is_green 10 (49 # 5) = false
  /\ is_green 0 1 = true.
Proof.
  destruct (row_colour 10 (51 # 5)) as (Hp & _ & _).
  destruct (row_colour 10 (49 # 5)) as (Hn & _ & _).
  destruct (row_colour 0 1) as (_ & _ & Hz).
  split; [|split].
  - apply Hp; [reflexivity | discriminate].
  - destruct (is_green 10 (49 # 5)) eqn:E; [|reflexivity].
    exfalso. assert (C : 10 <= 49 # 5) by (apply Hn; reflexivity).
    apply C. reflexivity.
  - apply Hz; reflexivity.
Defined.

End RowColour.

(** ** Where the VWAP column is defined *)

Section VwapDefined.
Import Pandas Vwap.

Lemma VWAP_entry (data : list Bar) (i : nat) :
  (i < length data)%nat ->
  exists c,
    c == sum_Q (map VP (firstn (S i) data))
    /\ nth_error (VWAP data) i
       = Some (fdiv c (sum_N (map Volume (firstn (S i) data)))).
Proof.
  intros Hi.
  destruct (Cum_VP_nth data i Hi) as (c & Hc & Hceq).
  pose proof (Cum_Vol_nth data i Hi) as Hn.
  exists c. split; [exact Hceq|].
  unfold VWAP. now apply zip_div_nth.
Qed.

Lemma sum_N_firstn_mono (l : list N) :
  forall n m, (n <= m)%nat ->
    (sum_N (firstn n l) <= sum_N (firstn m l))%N.
Proof.
  induction l as [|x l IH]; intros n m H.
  - rewrite !firstn_nil. lia.
  - destruct n as [|n]; destruct m as [|m]; cbn [firstn sum_N fold_right];
      try lia.
    specialize (IH n m). change (fold_right N.add 0%N) with sum_N.
    assert (n <= m)%nat by lia. specialize (IH H0). lia.
Qed.

(** Once the VWAP is defined it stays defined: only the rows before the
    first traded share hold NaN. *)
Theorem vwap_stays_defined (data : list Bar) (i j : nat) (v : Q) :
  nth_error (VWAP data) i = Some (Some v) ->
  (i <= j)%nat -> (j < length data)%nat ->
  exists v', nth_error (VWAP data) j = Some (Some v').
Proof.
  intros Hv Hij Hj.
  destruct (VWAP_entry data i) as (ci & _ & Ei); [lia|].
  destruct (VWAP_entry data j Hj) as (cj & _ & Ej).
  rewrite Ei in Hv. rewrite Ej. unfold fdiv in *.
  pose proof (sum_N_firstn_mono (map Volume data) (S i) (S j)) as Hm.
  rewrite !firstn_map in Hm.
  destruct (N.eqb_spec (sum_N (map Volume (firstn (S i) data))) 0) as [C|Hi0];
    [discriminate|].
  destruct (N.eqb_spec (sum_N (map Volume (firstn (S j) data))) 0) as [C|_].
  - assert (S i <= S j)%nat by lia. specialize (Hm H). lia.
  - eexists. reflexivity.
Qed.

Lemma vwap_stays_defined_witness :
  exists v', nth_error (VWAP Samples.scenario_A) 4 = Some (Some v').
Proof.
  apply (vwap_stays_defined Samples.scenario_A 0 4
           ((10.5 + 9.8 + 10.2) / 3 * inject_Z (Z.of_N 100)
            / inject_Z (Z.of_N 100))).
  - reflexivity.
  - lia.
  - simpl. lia.
Defined.

End VwapDefined.
